(** * habit-tracker backend: persistence gateway and streak calculator

    A shallow embedding of [backend/src/index.ts] and
    [backend/src/repositories/habitRepository.ts].

    - The SQLite database is a pair of tables (lists of rows in rowid
      order) with their AUTOINCREMENT counters.
    - [async] code that may reject is a state-and-error monad over a
      [World]: the database, an oracle saying which of the coming driver
      calls fail, the wall clock and the console.
    - JavaScript time values are integers (milliseconds since the epoch);
      all quotients taken here stay far below 2^53, so [Math.floor(a / b)]
      is [Z.div]. *)

From Stdlib Require Import ZArith List String Ascii Bool Lia.
From Stdlib Require Import Permutation Sorting.Sorted DecimalString.
From Stdlib Require DecimalZ DecimalPos.
Import ListNotations.
Open Scope Z_scope.

(** ** What the platform provides

    Library functions whose results the code only passes along: the local
    time zone of the server process, [Date.prototype.toISOString], and
    SQLite's [date()] and [CURRENT_TIMESTAMP]. *)

Record Platform : Type := {
  (** local time = UTC + [tzOffset], in milliseconds; one offset for all
      the instants of a request (no daylight-saving change between the
      entries and now) *)
  tzOffset : Z;
  (** [new Date(t).toISOString()] *)
  toISOString : Z -> string;
  (** [date(x)]: the calendar day 'YYYY-MM-DD', as its number of days
      since 1970-01-01, or [None] for SQL NULL (unparsable text) *)
  sqlite_date : string -> option Z;
  (** [date('now', '-N days')] evaluated at clock value [t] *)
  sqlite_date_now : Z -> Z -> string;
  (** [CURRENT_TIMESTAMP] evaluated at clock value [t] *)
  sqlite_current_timestamp : Z -> string
}.

(** ** JavaScript dates *)

Module JsDate.

  (** [1000 * 60 * 60 * 24] *)
Definition msPerDay : Z := 1000 * 60 * 60 * 24.

  (** [new Date(row.date)] for a column produced by SQLite's [date()]:
      a date-only ISO string is UTC midnight of that day, and
      [new Date(null)] is the epoch. *)
Definition ofSqlDate (d : option Z) : Z :=
    match d with
    | Some day => day * msPerDay
    | None => 0
    end.

  (** [d.setHours(0, 0, 0, 0)]: midnight, in local time, of the local day
      that contains [t]. *)
Definition setHours0 (off t : Z) : Z :=
    ((t + off) / msPerDay) * msPerDay - off.

  (** [Math.floor((a.getTime() - b.getTime()) / (1000 * 60 * 60 * 24))] *)
Definition diffDays (a b : Z) : Z := (a - b) / msPerDay.

  (** Calendar day (days since 1970-01-01) of an instant, in UTC and in
      local time. *)
Definition utcDay (t : Z) : Z := t / msPerDay.
Definition localDay (off t : Z) : Z := (t + off) / msPerDay.

End JsDate.

(** ** Rows and tables *)

Module Habit.
Record t : Type := mk {
    id : Z;
    name : string;
    description : string;
    frequency : string;
    target_days : string;      (* TEXT: JSON-encoded *)
    priority : Z;
    category : string;
    created_at : string
  }.
End Habit.

Module HabitEntry.
Record t : Type := mk {
    id : Z;
    habit_id : Z;
    completed_at : string
  }.
End HabitEntry.

Record Database : Type := mkDatabase {
  habits : list Habit.t;
  habit_entries : list HabitEntry.t;
  (** sqlite_sequence: the largest rowid ever handed out, per table *)
  seq_habits : Z;
  seq_habit_entries : Z
}.

(** [CreateHabitDTO] (types/habit.ts), the request body of POST /habits. *)
Record CreateHabitDTO : Type := mkDTO {
  dto_name : string;
  dto_description : string;
  dto_frequency : string;
  dto_target_days : list string;
  dto_priority : Z;
  dto_category : string
}.

(** ** [JSON.stringify] on an array of strings *)

Module JSON.

Definition dquote : ascii := "034"%char.
Definition backslash : ascii := "092"%char.

Definition hexDigit (n : N) : ascii :=
    if (n <? 10)%N then ascii_of_N (48 + n) else ascii_of_N (87 + n).

Definition str1 (c : ascii) : string := String c EmptyString.
Definition esc (c : ascii) : string := String backslash (str1 c).

  (** QuoteJSONString, one code unit: the two-character escapes, then
      [\u00xx] for the other control characters. *)
Definition quoteChar (c : ascii) : string :=
    let n := N_of_ascii c in
    if (n =? 34)%N then esc dquote
    else if (n =? 92)%N then esc backslash
    else if (n =? 8)%N then esc "b"
    else if (n =? 12)%N then esc "f"
    else if (n =? 10)%N then esc "n"
    else if (n =? 13)%N then esc "r"
    else if (n =? 9)%N then esc "t"
    else if (n <? 32)%N then
      String backslash
        (String "u" (String "0" (String "0"
           (String (hexDigit (n / 16)) (str1 (hexDigit (n mod 16)))))))
    else str1 c.

Fixpoint quoteBody (s : string) : string :=
    match s with
    | EmptyString => EmptyString
    | String c rest => quoteChar c ++ quoteBody rest
    end.

Definition quote (s : string) : string :=
    String dquote (quoteBody s ++ str1 dquote).

Fixpoint joinComma (l : list string) : string :=
    match l with
    | [] => EmptyString
    | [x] => x
    | x :: rest => x ++ String "," (joinComma rest)
    end.

  (** [JSON.stringify(a)] for [a : string[]] *)
Definition stringify (a : list string) : string :=
    String "[" (joinComma (map quote a) ++ str1 "]").

End JSON.

(** ** ORDER BY: a stable insertion sort on a total preorder *)

Section OrderBy.
Context {A : Type} (leb : A -> A -> bool).

Fixpoint insert_row (x : A) (l : list A) : list A :=
    match l with
    | [] => [x]
    | y :: rest => if leb x y then x :: l else y :: insert_row x rest
    end.

Fixpoint order_by (l : list A) : list A :=
    match l with
    | [] => []
    | x :: rest => insert_row x (order_by rest)
    end.
End OrderBy.

(** Text comparison of SQLite's BINARY collation. *)
Definition text_leb (a b : string) : bool := String.leb a b.

(** [ORDER BY priority DESC, created_at DESC]: [a] may come before [b]. *)
Definition habit_before (a b : Habit.t) : bool :=
  (Habit.priority b <? Habit.priority a)
  || ((Habit.priority a =? Habit.priority b)
      && text_leb (Habit.created_at b) (Habit.created_at a)).

(** [ORDER BY completed_at DESC] *)
Definition entry_before (a b : HabitEntry.t) : bool :=
  text_leb (HabitEntry.completed_at b) (HabitEntry.completed_at a).

(** ** SQL statements, as functions on the database

    The statements are the ones that appear as string literals in the two
    source files.  The schema declares a foreign key from
    [habit_entries.habit_id] to [habits.id], but the connection never
    turns foreign-key enforcement on, so no statement checks it. *)

Module Sql.
Section Statements.
Context (P : Platform).

Definition max_habit_id (l : list Habit.t) : Z :=
    fold_right (fun h m => Z.max (Habit.id h) m) 0 l.

Definition max_entry_id (l : list HabitEntry.t) : Z :=
    fold_right (fun e m => Z.max (HabitEntry.id e) m) 0 l.

  (** [SELECT * FROM habits ORDER BY priority DESC, created_at DESC] *)
Definition select_habits_ordered (d : Database) : list Habit.t :=
    order_by habit_before (habits d).

  (** [SELECT * FROM habits WHERE id = ?] through [db.get]: first row *)
Definition select_habit (id : Z) (d : Database) : option Habit.t :=
    find (fun h => Habit.id h =? id) (habits d).

  (** [INSERT INTO habits (name, description, frequency, target_days,
      priority, category) VALUES (?, ?, ?, ?, ?, ?)]; the result is
      [lastID].  AUTOINCREMENT: one more than every rowid ever used. *)
Definition insert_habit (now : Z)
      (name description frequency target_days : string) (priority : Z)
      (category : string) (d : Database) : Z * Database :=
    let rowid := Z.max (seq_habits d) (max_habit_id (habits d)) + 1 in
    (rowid,
     {| habits := habits d ++
          [Habit.mk rowid name description frequency target_days priority
             category (sqlite_current_timestamp P now)];
        habit_entries := habit_entries d;
        seq_habits := rowid;
        seq_habit_entries := seq_habit_entries d |}).

  (** [DELETE FROM habit_entries WHERE habit_id = ?] *)
Definition delete_entries_of (id : Z) (d : Database) : Database :=
    {| habits := habits d;
       habit_entries :=
         filter (fun e => negb (HabitEntry.habit_id e =? id)) (habit_entries d);
       seq_habits := seq_habits d;
       seq_habit_entries := seq_habit_entries d |}.

  (** [DELETE FROM habits WHERE id = ?] *)
Definition delete_habit (id : Z) (d : Database) : Database :=
    {| habits := filter (fun h => negb (Habit.id h =? id)) (habits d);
       habit_entries := habit_entries d;
       seq_habits := seq_habits d;
       seq_habit_entries := seq_habit_entries d |}.

  (** [INSERT INTO habit_entries (habit_id, completed_at) VALUES (?, ?)] *)
Definition insert_entry (habit_id : Z) (completed_at : string)
      (d : Database) : Database :=
    let rowid :=
      Z.max (seq_habit_entries d) (max_entry_id (habit_entries d)) + 1 in
    {| habits := habits d;
       habit_entries :=
         habit_entries d ++ [HabitEntry.mk rowid habit_id completed_at];
       seq_habits := seq_habits d;
       seq_habit_entries := rowid |}.

  (** [SELECT date(completed_at) as date FROM habit_entries
       WHERE habit_id = ? ORDER BY completed_at DESC] *)
Definition select_entry_dates (habit_id : Z) (d : Database)
      : list (option Z) :=
    map (fun e => sqlite_date P (HabitEntry.completed_at e))
      (order_by entry_before
         (filter (fun e => HabitEntry.habit_id e =? habit_id)
            (habit_entries d))).

  (** [SELECT completed_at FROM habit_entries WHERE habit_id = ?
       AND completed_at >= date("now", "-30 days")] *)
Definition select_recent_entries (now : Z) (habit_id : Z) (d : Database)
      : list string :=
    map HabitEntry.completed_at
      (filter (fun e => (HabitEntry.habit_id e =? habit_id)
                        && text_leb (sqlite_date_now P now 30)
                                    (HabitEntry.completed_at e))
         (habit_entries d)).

(** [UPDATE habits SET name = ?, description = ?, frequency = ?,
    target_days = ?, priority = ?, category = ? WHERE id = ?] *)
Definition update_habit (id : Z)
    (name description frequency target_days : string) (priority : Z)
    (category : string) (d : Database) : Database :=
  {| habits :=
       map (fun h =>
              if Habit.id h =? id
              then Habit.mk (Habit.id h) name description frequency
                     target_days priority category (Habit.created_at h)
              else h)
         (habits d);
     habit_entries := habit_entries d;
     seq_habits := seq_habits d;
     seq_habit_entries := seq_habit_entries d |}.

(** [SELECT * FROM habit_entries WHERE habit_id = ?
     AND completed_at >= date("now", ?)] with [`-${daysAgo} days`] *)
Definition select_entries_since (now : Z) (habit_id daysAgo : Z)
    (d : Database) : list HabitEntry.t :=
  filter (fun e => (HabitEntry.habit_id e =? habit_id)
                   && text_leb (sqlite_date_now P now daysAgo)
                               (HabitEntry.completed_at e))
    (habit_entries d).

End Statements.
End Sql.

(** ** The world and the [async] monad *)

Record Error : Type := mkError { message : string }.

Record World : Type := mkWorld {
  db : Database;
  (** what the coming driver calls do: [Some msg] rejects with
      [Error(msg)], [None] succeeds; past the end every call succeeds *)
  faults : list (option string);
  (** [Date.now()] while the request is handled *)
  clock : Z;
  (** lines written by [console.error], oldest first *)
  console : list string
}.

Inductive Outcome (A : Type) : Type :=
| Resolved (a : A)
| Rejected (e : Error).
Arguments Resolved {A} a.
Arguments Rejected {A} e.

Definition Async (A : Type) : Type := World -> Outcome A * World.

Definition ret {A} (a : A) : Async A := fun w => (Resolved a, w).

Definition bind {A B} (m : Async A) (k : A -> Async B) : Async B :=
  fun w =>
    match m w with
    | (Resolved a, w') => k a w'
    | (Rejected e, w') => (Rejected e, w')
    end.

Definition throw {A} (e : Error) : Async A := fun w => (Rejected e, w).

(** [try { body } catch (error) { handler }] *)
Definition try_catch {A} (body : Async A) (handler : Error -> Async A)
    : Async A :=
  fun w =>
    match body w with
    | (Resolved a, w') => (Resolved a, w')
    | (Rejected e, w') => handler e w'
    end.

Notation "x <- m ;; k" := (bind m (fun x => k))
  (at level 61, m at next level, right associativity).
Notation "m ;;; k" := (bind m (fun _ => k))
  (at level 61, right associativity).

Definition next_fault (w : World) : option string :=
  match faults w with
  | Some msg :: _ => Some msg
  | _ => None
  end.

(** One call into the sqlite driver ([db.all], [db.get], [db.run]). *)
Definition driver {A} (stmt : Z -> Database -> A * Database) : Async A :=
  fun w =>
    match next_fault w with
    | Some msg =>
        (Rejected (mkError msg),
         mkWorld (db w) (tl (faults w)) (clock w) (console w))
    | None =>
        let (a, d) := stmt (clock w) (db w) in
        (Resolved a, mkWorld d (tl (faults w)) (clock w) (console w))
    end.

Definition query {A} (q : Database -> A) : Async A :=
  driver (fun _ d => (q d, d)).

Definition exec (u : Database -> Database) : Async unit :=
  driver (fun _ d => (tt, u d)).

(** [new Date()] *)
Definition new_Date : Async Z := fun w => (Resolved (clock w), w).

(** [console.error(label, error)] *)
Definition console_error (label : string) (e : Error) : Async unit :=
  fun w =>
    (Resolved tt,
     mkWorld (db w) (faults w) (clock w)
       (console w ++ [(label ++ String " " (message e))%string])).

(** [`${id}`] for an integer *)
Definition string_of_Z (z : Z) : string :=
  NilZero.string_of_int (Z.to_int z).

(** ** backend/src/repositories/habitRepository.ts *)

Module HabitRepository.
Section Methods.
Context (P : Platform).

Definition findAll : Async (list Habit.t) :=
  try_catch
    (query Sql.select_habits_ordered)
    (fun error =>
       console_error "Error in findAll:" error ;;;
       throw (mkError "Failed to fetch habits from database")).

(** [undefined] is [None] *)
Definition findById (id : Z) : Async (option Habit.t) :=
  try_catch
    (query (Sql.select_habit id))
    (fun error =>
       console_error "Error in findById:" error ;;;
       throw (mkError ("Failed to fetch habit with id " ++ string_of_Z id))).

Definition create (habit : CreateHabitDTO) : Async Z :=
  try_catch
    (driver (fun now =>
       Sql.insert_habit P now (dto_name habit) (dto_description habit)
         (dto_frequency habit) (JSON.stringify (dto_target_days habit))
         (dto_priority habit) (dto_category habit)))
    (fun error =>
       console_error "Error in create:" error ;;;
       throw (mkError "Failed to create habit")).

Definition delete (id : Z) : Async unit :=
  try_catch
    (exec (Sql.delete_entries_of id) ;;;
     exec (Sql.delete_habit id))
    (fun error =>
       console_error "Error in delete:" error ;;;
       throw (mkError ("Failed to delete habit with id " ++ string_of_Z id))).

Definition addEntry (habitId : Z) (completedAt : string) : Async unit :=
  try_catch
    (exec (Sql.insert_entry habitId completedAt))
    (fun error =>
       console_error "Error in addEntry:" error ;;;
       throw (mkError ("Failed to add entry for habit " ++ string_of_Z habitId))).

(** The [for] loop of [calculateStreak]: [entries] is what is left to
    visit, [streak] and [currentDate] are the two mutable locals; leaving
    the recursion is the [break]. *)
Fixpoint streak_loop (entries : list (option Z)) (streak : nat)
    (currentDate : Z) : nat :=
  match entries with
  | [] => streak
  | date :: rest =>
      let entryDate := JsDate.ofSqlDate date in
      let diffDays := JsDate.diffDays currentDate entryDate in
      if diffDays <=? 1 then streak_loop rest (S streak) entryDate
      else streak
  end.

Definition calculateStreak (habitId : Z) : Async nat :=
  try_catch
    (entries <- query (Sql.select_entry_dates P habitId) ;;
     currentDate <- new_Date ;;
     ret (streak_loop entries 0%nat currentDate))
    (fun error =>
       console_error "Error in calculateStreak:" error ;;;
       ret 0%nat).

(** [update], called with the six fields present (as the PUT handler's
    validated body has them) *)
Definition update (id : Z) (habit : CreateHabitDTO) : Async unit :=
  try_catch
    (exec (Sql.update_habit id (dto_name habit) (dto_description habit)
             (dto_frequency habit) (JSON.stringify (dto_target_days habit))
             (dto_priority habit) (dto_category habit)))
    (fun error =>
       console_error "Error in update:" error ;;;
       throw (mkError ("Failed to update habit with id " ++ string_of_Z id))).

(** [getEntries(habitId, daysAgo = 30)]: [None] is the omitted argument *)
Definition getEntries (habitId : Z) (daysAgo : option Z)
    : Async (list HabitEntry.t) :=
  let daysAgo := match daysAgo with Some n => n | None => 30 end in
  try_catch
    (driver (fun now d => (Sql.select_entries_since P now habitId daysAgo d, d)))
    (fun error =>
       console_error "Error in getEntries:" error ;;;
       throw (mkError ("Failed to fetch entries for habit "
                       ++ string_of_Z habitId))).

End Methods.
End HabitRepository.

(** ** backend/src/index.ts

    A handler is the response it sends.  Route parameters reach the
    handlers as strings that passed [isInt]; SQLite compares them with
    the INTEGER columns by their numeric value, so they are integers
    here. *)

Module Index.

(** A habit as [getHabits] sends it: the row with [entries] and
    [currentStreak] added. *)
Record EnrichedHabit : Type := mkEnriched {
  row : Habit.t;
  entries : list string;
  currentStreak : nat
}.

Inductive Body : Type :=
| HabitList (l : list EnrichedHabit)
| HabitObject (h : Habit.t)
| CreatedId (id : Z)                         (* { id } *)
| Success                                     (* { success: true } *)
| Failure (error : string) (details : string) (* { error, details } *)
| NotFound (error : string).                  (* { error } *)

Record Response : Type := mkResponse { status : Z; body : Body }.

(** [res.json(b)] with the default status *)
Definition json (b : Body) : Response := mkResponse 200 b.

(** [CompleteHabitBody] *)
Record CompleteHabitBody : Type := mkCompleteBody {
  completed_at : option string
}.

(** [x || y] on an optional string: [undefined] and the empty string are
    falsy. *)
Definition or_else (x : option string) (y : string) : string :=
  match x with
  | Some (String c s) => String c s
  | Some EmptyString => y
  | None => y
  end.

Section Handlers.
Context (P : Platform).

Fixpoint streak_loop (entries : list (option Z)) (streak : nat)
    (currentDate : Z) : nat :=
  match entries with
  | [] => streak
  | date :: rest =>
      let entryDate := JsDate.setHours0 (tzOffset P) (JsDate.ofSqlDate date) in
      let diffDays := JsDate.diffDays currentDate entryDate in
      if diffDays <=? 1 then streak_loop rest (S streak) entryDate
      else streak
  end.

Definition calculateStreak (habitId : Z) : Async nat :=
  try_catch
    (entries <- query (Sql.select_entry_dates P habitId) ;;
     match entries with
     | [] => ret 0%nat
     | _ :: _ =>
         now <- new_Date ;;
         let currentDate := JsDate.setHours0 (tzOffset P) now in
         ret (streak_loop entries 0%nat currentDate)
     end)
    (fun error =>
       console_error "Error calculating streak:" error ;;;
       ret 0%nat).

(** [for (let habit of habits) { ... }], collecting the habits as the
    body leaves them *)
Fixpoint for_of {A B} (l : list A) (f : A -> Async B) : Async (list B) :=
  match l with
  | [] => ret []
  | x :: rest =>
      y <- f x ;;
      ys <- for_of rest f ;;
      ret (y :: ys)
  end.

Definition getHabits : Async Response :=
  try_catch
    (habits <- query Sql.select_habits_ordered ;;
     habits' <- for_of habits (fun habit =>
       entries <- driver (fun now d =>
         (Sql.select_recent_entries P now (Habit.id habit) d, d)) ;;
       streak <- calculateStreak (Habit.id habit) ;;
       ret (mkEnriched habit entries streak)) ;;
     ret (json (HabitList habits')))
    (fun error =>
       console_error "Error fetching habits:" error ;;;
       ret (mkResponse 500 (Failure "Failed to fetch habits" (message error)))).

Definition getHabitById (id : Z) : Async Response :=
  try_catch
    (habit <- query (Sql.select_habit id) ;;
     match habit with
     | None => ret (mkResponse 404 (NotFound "Habit not found"))
     | Some h => ret (json (HabitObject h))
     end)
    (fun error =>
       console_error "Error fetching habit:" error ;;;
       ret (mkResponse 500 (Failure "Failed to fetch habit" (message error)))).

Definition createHabit (body : CreateHabitDTO) : Async Response :=
  try_catch
    (lastID <- driver (fun now =>
       Sql.insert_habit P now (dto_name body) (dto_description body)
         (dto_frequency body) (JSON.stringify (dto_target_days body))
         (dto_priority body) (dto_category body)) ;;
     ret (json (CreatedId lastID)))
    (fun error =>
       console_error "Error creating habit:" error ;;;
       ret (mkResponse 500 (Failure "Failed to create habit" (message error)))).

Definition deleteHabit (id : Z) : Async Response :=
  try_catch
    (exec (Sql.delete_entries_of id) ;;;
     exec (Sql.delete_habit id) ;;;
     ret (json Success))
    (fun error =>
       console_error "Error deleting habit:" error ;;;
       ret (mkResponse 500 (Failure "Failed to delete habit" (message error)))).

Definition completeHabit (habitId : Z) (body : CompleteHabitBody)
    : Async Response :=
  try_catch
    (habit <- query (Sql.select_habit habitId) ;;
     match habit with
     | None => ret (mkResponse 404 (NotFound "Habit not found"))
     | Some _ =>
         now <- new_Date ;;
         exec (Sql.insert_entry habitId
                 (or_else (completed_at body) (toISOString P now))) ;;;
         ret (json Success)
     end)
    (fun error =>
       console_error "Error completing habit:" error ;;;
       ret (mkResponse 500 (Failure "Failed to complete habit" (message error)))).

Definition updateHabit (id : Z) (body : CreateHabitDTO) : Async Response :=
  try_catch
    (exec (Sql.update_habit id (dto_name body) (dto_description body)
             (dto_frequency body) (JSON.stringify (dto_target_days body))
             (dto_priority body) (dto_category body)) ;;;
     ret (json Success))
    (fun error =>
       console_error "Error updating habit:" error ;;;
       ret (mkResponse 500 (Failure "Failed to update habit" (message error)))).

End Handlers.

(** A request that passed the validators, and the handler the router
    runs for it. *)
Inductive Request : Type :=
| GET_habits
| GET_habit (id : Z)
| POST_habit (body : CreateHabitDTO)
| PUT_habit (id : Z) (body : CreateHabitDTO)
| DELETE_habit (id : Z)
| POST_complete (id : Z) (body : CompleteHabitBody).

Definition router (P : Platform) (r : Request) : Async Response :=
  match r with
  | GET_habits => getHabits P
  | GET_habit id => getHabitById id
  | POST_habit body => createHabit P body
  | PUT_habit id body => updateHabit id body
  | DELETE_habit id => deleteHabit id
  | POST_complete id body => completeHabit P id body
  end.

End Index.

(** ** The objects the gateway takes and hands back, as JavaScript sees
    them

    [db.get] resolves to a plain object with one property per column; the
    repository casts it to [Habit] without converting anything. *)

Inductive JsValue : Type :=
| JsUndefined
| JsNumber (n : Z)
| JsString (s : string)
| JsArray (a : list string).

(** [habit[key]] on the object given to [create] *)
Definition dto_get (habit : CreateHabitDTO) (key : string) : JsValue :=
  if (key =? "name")%string then JsString (dto_name habit)
  else if (key =? "description")%string then JsString (dto_description habit)
  else if (key =? "frequency")%string then JsString (dto_frequency habit)
  else if (key =? "target_days")%string then JsArray (dto_target_days habit)
  else if (key =? "priority")%string then JsNumber (dto_priority habit)
  else if (key =? "category")%string then JsString (dto_category habit)
  else JsUndefined.

(** [habit[key]] on the object resolved by [findById] *)
Definition row_get (habit : Habit.t) (key : string) : JsValue :=
  if (key =? "id")%string then JsNumber (Habit.id habit)
  else if (key =? "name")%string then JsString (Habit.name habit)
  else if (key =? "description")%string then JsString (Habit.description habit)
  else if (key =? "frequency")%string then JsString (Habit.frequency habit)
  else if (key =? "target_days")%string then JsString (Habit.target_days habit)
  else if (key =? "priority")%string then JsNumber (Habit.priority habit)
  else if (key =? "category")%string then JsString (Habit.category habit)
  else if (key =? "created_at")%string then JsString (Habit.created_at habit)
  else JsUndefined.

(** The properties of a [CreateHabitDTO]. *)
Definition dto_keys : list string :=
  ["name"; "description"; "frequency"; "target_days"; "priority"; "category"]%string.

(** ** The streak algorithm in the words of the specification (4.2)

    Input: the calendar day of every completion-entry, most recent first,
    and the current day.  Days are numbered from 1970-01-01. *)

Module Spec.

(** Step 3: for each entry date, [gap] = whole days between [cursor] and
    the entry date; [gap <= 1] increments and moves the cursor, anything
    else stops. *)
Fixpoint scan (cursor : Z) (streak : nat) (dates : list Z) : nat :=
  match dates with
  | [] => streak
  | entry :: rest =>
      let gap := cursor - entry in
      if gap <=? 1 then scan entry (S streak) rest else streak
  end.

(** Steps 1, 2 and 4. *)
Definition streak (today : Z) (dates : list Z) : nat :=
  match dates with
  | [] => 0%nat
  | _ :: _ => scan today 0%nat dates
  end.

End Spec.

(** ** A reference platform for worked examples

    ISO-8601 text in UTC, as SQLite's [CURRENT_TIMESTAMP] and
    [toISOString] write it and as [date()] reads it, for years 0000 to
    9999; the time zone offset is left open. *)

Module RefPlatform.

(** Days since 1970-01-01 of a proleptic Gregorian date. *)
Definition days_from_civil (y m d : Z) : Z :=
  let y' := if m <=? 2 then y - 1 else y in
  let era := y' / 400 in
  let yoe := y' - era * 400 in
  let mp := if m <=? 2 then m + 9 else m - 3 in
  let doy := (153 * mp + 2) / 5 + d - 1 in
  let doe := yoe * 365 + yoe / 4 - yoe / 100 + doy in
  era * 146097 + doe - 719468.

(** The inverse: year, month, day of a day number. *)
Definition civil_from_days (z : Z) : Z * Z * Z :=
  let z' := z + 719468 in
  let era := z' / 146097 in
  let doe := z' - era * 146097 in
  let yoe := (doe - doe / 1460 + doe / 36524 - doe / 146096) / 365 in
  let doy := doe - (365 * yoe + yoe / 4 - yoe / 100) in
  let mp := (5 * doy + 2) / 153 in
  let d := doy - (153 * mp + 2) / 5 + 1 in
  let m := if mp <? 10 then mp + 3 else mp - 9 in
  let y := yoe + era * 400 in
  (if m <=? 2 then y + 1 else y, m, d).

Definition digit (c : ascii) : option Z :=
  let n := Z.of_N (N_of_ascii c) in
  if (48 <=? n) && (n <=? 57) then Some (n - 48) else None.

(** Reads exactly [n] decimal digits. *)
Fixpoint digits (n : nat) (acc : Z) (s : string) : option (Z * string) :=
  match n with
  | O => Some (acc, s)
  | S n' =>
      match s with
      | String c rest =>
          match digit c with
          | Some v => digits n' (10 * acc + v) rest
          | None => None
          end
      | EmptyString => None
      end
  end.

(** [date(x)] for text that starts with YYYY-MM-DD. *)
Definition date (x : string) : option Z :=
  match digits 4 0 x with
  | Some (y, String "-" s1) =>
      match digits 2 0 s1 with
      | Some (m, String "-" s2) =>
          match digits 2 0 s2 with
          | Some (d, _) =>
              if (1 <=? m) && (m <=? 12) && (1 <=? d) && (d <=? 31)
              then Some (days_from_civil y m d) else None
          | None => None
          end
      | _ => None
      end
  | _ => None
  end.

(** [n] written with [width] decimal digits. *)
Fixpoint pad (width : nat) (n : Z) : string :=
  match width with
  | O => EmptyString
  | S w => (pad w (n / 10) ++ String (ascii_of_N (Z.to_N (48 + n mod 10))) EmptyString)%string
  end.

Definition ymd (day : Z) : string :=
  let '(y, m, d) := civil_from_days day in
  (pad 4 y ++ "-" ++ pad 2 m ++ "-" ++ pad 2 d)%string.

Definition hms (ms : Z) : string :=
  (pad 2 (ms / 3600000) ++ ":" ++ pad 2 (ms / 60000 mod 60) ++ ":"
   ++ pad 2 (ms / 1000 mod 60))%string.

Definition isoString (t : Z) : string :=
  let ms := t mod JsDate.msPerDay in
  (ymd (t / JsDate.msPerDay) ++ "T" ++ hms ms ++ "." ++ pad 3 (ms mod 1000)
   ++ "Z")%string.

Definition timestamp (t : Z) : string :=
  (ymd (t / JsDate.msPerDay) ++ " " ++ hms (t mod JsDate.msPerDay))%string.

Definition at_offset (off : Z) : Platform :=
  {| tzOffset := off;
     toISOString := isoString;
     sqlite_date := date;
     sqlite_date_now := fun t n => ymd (t / JsDate.msPerDay - n);
     sqlite_current_timestamp := timestamp |}.

(** A server that runs in UTC, and one two hours east of it. *)
Definition utc : Platform := at_offset 0.

End RefPlatform.

(** ** Auxiliary notions used by the statements *)

(** The world after one successful or failed driver call that leaves the
    database alone. *)
Definition served (w : World) : World :=
  mkWorld (db w) (tl (faults w)) (clock w) (console w).

(** What each [calculateStreak] resolves to. *)
Definition index_streak_value (P : Platform) (habitId : Z) (w : World) : nat :=
  match next_fault w with
  | Some _ => 0%nat
  | None =>
      match Sql.select_entry_dates P habitId (db w) with
      | [] => 0%nat
      | entries =>
          Index.streak_loop P entries 0%nat
            (JsDate.setHours0 (tzOffset P) (clock w))
      end
  end.

Definition repo_streak_value (P : Platform) (habitId : Z) (w : World) : nat :=
  match next_fault w with
  | Some _ => 0%nat
  | None =>
      HabitRepository.streak_loop (Sql.select_entry_dates P habitId (db w))
        0%nat (clock w)
  end.

(** ** Worked example: three habits and a few completions *)

Module Sample.

Definition read : Habit.t :=
  Habit.mk 1 "Read" "Twenty pages" "daily" (JSON.stringify []) 2 "mind"
    "2024-03-01 09:00:00".

Definition run : Habit.t :=
  Habit.mk 2 "Run" "Five kilometres" "custom"
    (JSON.stringify ["monday"; "wednesday"]%string) 3 "body"
    "2024-03-02 18:30:00".

Definition stretch : Habit.t :=
  Habit.mk 3 "Stretch" "Ten minutes" "daily" (JSON.stringify []) 2 "body"
    "2024-03-05 07:00:00".

Definition read_on_9th : HabitEntry.t :=
  HabitEntry.mk 1 1 "2024-03-09T07:30:00.000Z".
Definition run_on_9th : HabitEntry.t :=
  HabitEntry.mk 2 2 "2024-03-09T18:00:00.000Z".
Definition read_on_10th : HabitEntry.t :=
  HabitEntry.mk 3 1 "2024-03-10T08:00:00.000Z".
Definition read_again_on_10th : HabitEntry.t :=
  HabitEntry.mk 4 1 "2024-03-10T19:00:00.000Z".

Definition store : Database :=
  mkDatabase [read; run; stretch] [read_on_9th; run_on_9th; read_on_10th] 3 3.

(** The same with a second completion of habit 1 on the 10th. *)
Definition store_twice : Database :=
  mkDatabase [read; run; stretch]
    [read_on_9th; run_on_9th; read_on_10th; read_again_on_10th] 3 4.

(** 2024-03-10T20:00:00Z and 2024-03-10T23:00:00Z *)
Definition evening : Z := 1710100800000.
Definition late : Z := 1710111600000.

(** A request handled at [evening] with a healthy database connection. *)
Definition world : World := mkWorld store [] evening [].
Definition world_twice : World := mkWorld store_twice [] evening [].

(** The same request when the first driver call is rejected. *)
Definition world_down : World :=
  mkWorld store [Some "SQLITE_BUSY: database is locked"%string] evening [].

End Sample.

(** ** Notions used by the statements about the gateway *)

(** [a] is listed before [b] under
    [ORDER BY priority DESC, created_at DESC]. *)
Definition habit_order (a b : Habit.t) : Prop :=
  Habit.priority b < Habit.priority a
  \/ (Habit.priority a = Habit.priority b
      /\ text_leb (Habit.created_at b) (Habit.created_at a) = true).

(** Every coming driver call succeeds. *)
Definition healthy (w : World) : Prop := Forall (fun f => f = None) (faults w).


(** A new habit and a completion request for the worked examples. *)
Module Request.

Definition meditate : CreateHabitDTO :=
  mkDTO "Meditate" "Ten quiet minutes" "custom"
    ["monday"; "wednesday"]%string 1 "mind".



End Request.

(** ** Invariants of the tables *)


(** Every completion-entry belongs to a stored habit. *)
Definition referential (d : Database) : Prop :=
  forall e, In e (habit_entries d) ->
            exists h, In h (habits d) /\ Habit.id h = HabitEntry.habit_id e.



(** [evolves P d d']: the server gets from database [d] to [d'] by
    handling validated requests, at any times and with any driver calls
    failing. *)
Inductive evolves (P : Platform) (d : Database) : Database -> Prop :=
| evolves_here : evolves P d d
| evolves_step (w : World) (r : Index.Request) :
    evolves P d (db w) -> evolves P d (db (snd (Index.router P r w))).

(** The row an UPDATE writes over [h]. *)
Definition overwritten (body : CreateHabitDTO) (h : Habit.t) : Habit.t :=
  Habit.mk (Habit.id h) (dto_name body) (dto_description body)
    (dto_frequency body) (JSON.stringify (dto_target_days body))
    (dto_priority body) (dto_category body) (Habit.created_at h).

(** Worked example, continued: the sample store after POST /habits with
    [Request.meditate], and after DELETE of the habit just created. *)
Module Session.

Definition created : World :=
  snd (Index.createHabit RefPlatform.utc Request.meditate Sample.world).

Definition deleted : World :=
  snd (Index.deleteHabit 4 (mkWorld (db created) [] Sample.late [])).

Definition later : World := mkWorld (db deleted) [] Sample.late [].

End Session.

(** Worked example, continued: the sample store while the connection
    drops the third driver call, which is the streak query of the first
    habit listed. *)
Module Outage.

Definition streak_query_lost : World :=
  mkWorld Sample.store
    [None; None; Some "SQLITE_BUSY: database is locked"%string;
     None; None; None; None]
    Sample.evening [].

End Outage.

(** ** Notions used by the statements about streaks *)


(** How many completion-entries a habit has. *)
Definition entry_count (habitId : Z) (d : Database) : nat :=
  List.length (filter (fun e => HabitEntry.habit_id e =? habitId)
                 (habit_entries d)).

(** Worked example, continued: habit 1 is completed once more, with a
    [completed_at] that is not a timestamp. *)
Module Garbled.

Definition request : Index.CompleteHabitBody :=
  Index.mkCompleteBody (Some "tomorrow"%string).

Definition world : World :=
  mkWorld
    (db (snd (Index.completeHabit RefPlatform.utc 1 request Sample.world)))
    [] Sample.evening [].

End Garbled.

(** ** Reading back what [JSON.stringify] wrote

    The program never parses the stored text; this reader only serves to
    show that the text still holds the whole array. *)

Module JSONRead.

Definition hexValue (c : ascii) : option N :=
  let n := N_of_ascii c in
  if (48 <=? n)%N && (n <=? 57)%N then Some (n - 48)%N
  else if (97 <=? n)%N && (n <=? 102)%N then Some (n - 87)%N
  else None.

(** The characters of a string literal up to its closing quote, and what
    follows the quote. *)
Fixpoint body (s : string) : option (string * string) :=
  match s with
  | EmptyString => None
  | String c rest =>
      if (N_of_ascii c =? 34)%N then Some (EmptyString, rest)
      else if (N_of_ascii c =? 92)%N then
        match rest with
        | String e rest' =>
            let continue (x : ascii) (r : option (string * string)) :=
              match r with
              | Some (t, after) => Some (String x t, after)
              | None => None
              end in
            if (N_of_ascii e =? 34)%N then continue JSON.dquote (body rest')
            else if (N_of_ascii e =? 92)%N then
              continue JSON.backslash (body rest')
            else if (N_of_ascii e =? 98)%N then continue "008"%char (body rest')
            else if (N_of_ascii e =? 102)%N then continue "012"%char (body rest')
            else if (N_of_ascii e =? 110)%N then continue "010"%char (body rest')
            else if (N_of_ascii e =? 114)%N then continue "013"%char (body rest')
            else if (N_of_ascii e =? 116)%N then continue "009"%char (body rest')
            else if (N_of_ascii e =? 117)%N then
              match rest' with
              | String _ (String _ (String h (String l rest''))) =>
                  match hexValue h, hexValue l with
                  | Some hi, Some lo =>
                      continue (ascii_of_N (16 * hi + lo)) (body rest'')
                  | _, _ => None
                  end
              | _ => None
              end
            else None
        | EmptyString => None
        end
      else
        match body rest with
        | Some (t, after) => Some (String c t, after)
        | None => None
        end
  end.

(** The elements of an array after its opening bracket; [fuel] bounds
    their number. *)
Fixpoint elements (fuel : nat) (s : string) : option (list string) :=
  match fuel with
  | O => None
  | S fuel' =>
      match s with
      | String q rest =>
          if (N_of_ascii q =? 34)%N then
            match body rest with
            | Some (x, String d after) =>
                if (N_of_ascii d =? 93)%N then Some [x]
                else if (N_of_ascii d =? 44)%N then
                  match elements fuel' after with
                  | Some xs => Some (x :: xs)
                  | None => None
                  end
                else None
            | _ => None
            end
          else None
      | EmptyString => None
      end
  end.

(** [JSON.parse] on the text of an array of strings *)
Definition parse (s : string) : option (list string) :=
  match s with
  | String o rest =>
      if (N_of_ascii o =? 91)%N then
        match rest with
        | String c _ =>
            if (N_of_ascii c =? 93)%N then Some []
            else elements (String.length rest) rest
        | EmptyString => None
        end
      else None
  | EmptyString => None
  end.

End JSONRead.

(** ** The habits page and the habit form (frontend)

    The habits the page holds are the objects GET /habits sent. *)

Module Page.

Definition category (h : Index.EnrichedHabit) : string :=
  Habit.category (Index.row h).

(** [[...new Set(xs)]]: the first occurrence of every value, in order;
    [seen] is the set so far *)
Fixpoint set_spread (seen xs : list string) : list string :=
  match xs with
  | [] => []
  | x :: rest =>
      if existsb (String.eqb x) seen then set_spread seen rest
      else x :: set_spread (x :: seen) rest
  end.

(** [Boolean(s)] for a string *)
Definition Boolean (s : string) : bool := negb (String.eqb s EmptyString).

(** [['all', ...new Set(habits.map(h => h.category).filter(Boolean))]] *)
Definition categories (habits : list Index.EnrichedHabit) : list string :=
  "all"%string :: set_spread [] (filter Boolean (map category habits)).

(** [selectedCategory === 'all' ? habits
      : habits.filter(h => h.category === selectedCategory)] *)
Definition filteredHabits (habits : list Index.EnrichedHabit)
    (selectedCategory : string) : list Index.EnrichedHabit :=
  if String.eqb selectedCategory "all" then habits
  else filter (fun h => String.eqb (category h) selectedCategory) habits.

End Page.

Module HabitForm.

(** [currentDays.includes(day)] *)
Definition includes (currentDays : list string) (day : string) : bool :=
  existsb (String.eqb day) currentDays.

(** The [onChange] of a day's checkbox:
    [checked ? [...currentDays, day] : currentDays.filter(d => d !== day)] *)
Definition onChange (checked : bool) (currentDays : list string)
    (day : string) : list string :=
  if checked then currentDays ++ [day]
  else filter (fun d => negb (String.eqb d day)) currentDays.

End HabitForm.

(** Worked example, continued: what the page holds after GET /habits on
    the sample store. *)
Module Screen.

Definition listed : list Index.EnrichedHabit :=
  [Index.mkEnriched Sample.run ["2024-03-09T18:00:00.000Z"%string] 1;
   Index.mkEnriched Sample.stretch [] 0;
   Index.mkEnriched Sample.read
     ["2024-03-09T07:30:00.000Z"; "2024-03-10T08:00:00.000Z"]%string 2].

End Screen.

(** ** frontend/app/services/habitService.ts

    The service's state is its cache and what it can observe of the
    outside: the clock and the network with the server behind it.  A
    request's headers are always the same and are left out. *)

Module HabitService.

(** JSON values, as [response.json()] resolves to them *)
#[local] Unset Elimination Schemes.
Inductive Json : Type :=
| JNull
| JBool (b : bool)
| JNumber (n : Z)
| JString (s : string)
| JArray (items : list Json)
| JObject (fields : list (string * Json)).
#[local] Set Elimination Schemes.

(** [if (x)] *)
Definition truthy (x : Json) : bool :=
  match x with
  | JNull => false
  | JBool b => b
  | JNumber n => negb (n =? 0)
  | JString s => negb (String.eqb s EmptyString)
  | JArray _ => true
  | JObject _ => true
  end.

Record CacheEntry : Type := mkEntry { data : Json; timestamp : Z }.

(** [5 * 60 * 1000] *)
Definition CACHE_TIME : Z := 5 * 60 * 1000.

(** [Map<string, CacheEntry>]: the pairs in insertion order *)
Definition CacheMap : Type := list (string * CacheEntry).

Fixpoint map_get (key : string) (m : CacheMap) : option CacheEntry :=
  match m with
  | [] => None
  | (k, v) :: rest => if String.eqb k key then Some v else map_get key rest
  end.

Fixpoint map_set (key : string) (v : CacheEntry) (m : CacheMap) : CacheMap :=
  match m with
  | [] => [(key, v)]
  | (k, v') :: rest =>
      if String.eqb k key then (k, v) :: rest
      else (k, v') :: map_set key v rest
  end.

Fixpoint map_delete (key : string) (m : CacheMap) : CacheMap :=
  match m with
  | [] => []
  | (k, v) :: rest =>
      if String.eqb k key then rest else (k, v) :: map_delete key rest
  end.

Inductive Method : Type := GET | POST | PUT | DELETE.

(** [RequestInit]: the method and the value whose [JSON.stringify] is
    the body *)
Record RequestInit : Type := mkInit { method : Method; body : option Json }.

(** What [fetch] and then [response.json()] do.  The body of a response
    that is not ok is read through the cast [{ error: string }]: all that
    matters of it is its [error] field, if it has one. *)
Inductive FetchResult : Type :=
| FetchRejects (e : Error)
| ResponseOk (json : Json + Error)
| ResponseNotOk (errorData : option string + Error).

(** A parameter value of [getCacheKey] *)
Inductive Param : Type :=
| PString (s : string)
| PNumber (n : Z)
| PBoolean (b : bool).

Definition stringify_param (p : Param) : string :=
  match p with
  | PString s => JSON.quote s
  | PNumber n => string_of_Z n
  | PBoolean true => "true"
  | PBoolean false => "false"
  end.

(** [JSON.stringify(params)] for a flat record *)
Definition stringify_params (params : list (string * Param)) : string :=
  (String "{"
     (JSON.joinComma
        (map (fun kv => JSON.quote (fst kv) ++ String ":" (stringify_param (snd kv)))
           params)
      ++ JSON.str1 "}"))%string.

(** [params ? `${key}:${JSON.stringify(params)}` : key] *)
Definition getCacheKey (key : string) (params : option (list (string * Param)))
    : string :=
  match params with
  | Some ps => (key ++ String ":" (stringify_params ps))%string
  | None => key
  end.

Section Service.
Context {Net : Type}.
(** [fetch(url, options)] issued at a clock value on a network state:
    what comes back, the clock value when it has come back, and the
    network state then *)
Context (fetch : string -> RequestInit -> Z -> Net -> FetchResult * Z * Net).
(** [process.env.NEXT_PUBLIC_API_URL || 'http://localhost:3001/api'] *)
Context (API_BASE_URL : string).
Context (P : Platform).

Record Client : Type := mkClient {
  cache : CacheMap;
  now : Z;                         (* [Date.now()] *)
  net : Net;
  console : list string
}.

Definition Task (A : Type) : Type := Client -> Outcome A * Client.

(** [catch (error) { console.error('API Error:', error); throw ... }]:
    everything thrown in the [try] is an [Error] and is thrown on *)
Definition rethrow {A} (e : Error) (c : Client) : Outcome A * Client :=
  (Rejected e,
   mkClient (cache c) (now c) (net c)
     (console c ++ [("API Error: " ++ message e)%string])).

Definition fetchWithErrorHandling (url : string) (options : RequestInit)
    : Task Json :=
  fun c =>
    let '(result, t, n) := fetch (API_BASE_URL ++ url)%string options (now c) (net c) in
    let c' := mkClient (cache c) t n (console c) in
    match result with
    | FetchRejects e => rethrow e c'
    | ResponseOk (inl json) => (Resolved json, c')
    | ResponseOk (inr e) => rethrow e c'
    | ResponseNotOk (inl (Some (String a s))) => rethrow (mkError (String a s)) c'
    | ResponseNotOk (inl _) => rethrow (mkError "An error occurred") c'
    | ResponseNotOk (inr e) => rethrow e c'
    end.

(** [null] is [JNull] *)
Definition getFromCache (key : string) (c : Client) : Json * Client :=
  match map_get key (cache c) with
  | None => (JNull, c)
  | Some cacheEntry =>
      let isExpired := CACHE_TIME <? now c - timestamp cacheEntry in
      if isExpired
      then (JNull, mkClient (map_delete key (cache c)) (now c) (net c) (console c))
      else (data cacheEntry, c)
  end.

Definition setCache (key : string) (data : Json) (c : Client) : Client :=
  mkClient (map_set key (mkEntry data (now c)) (cache c)) (now c) (net c)
    (console c).

Definition clearCache (c : Client) : Client :=
  mkClient [] (now c) (net c) (console c).

(** The tail shared by [fetchHabits] and [getHabitById]: fetch, cache,
    return *)
Definition fetch_and_cache (cacheKey url : string) : Task Json :=
  fun c =>
    match fetchWithErrorHandling url (mkInit GET None) c with
    | (Resolved json, c') => (Resolved json, setCache cacheKey json c')
    | (Rejected e, c') => (Rejected e, c')
    end.

Definition fetchHabits (forceRefresh : bool) : Task Json :=
  fun c =>
    let cacheKey := getCacheKey "habits" None in
    if forceRefresh then fetch_and_cache cacheKey "/habits" c
    else
      let (cachedData, c1) := getFromCache cacheKey c in
      if truthy cachedData then (Resolved cachedData, c1)
      else fetch_and_cache cacheKey "/habits" c1.

Definition getHabitById (id : Z) : Task Json :=
  fun c =>
    let cacheKey := getCacheKey "habit" (Some [("id"%string, PNumber id)]) in
    let (cachedData, c1) := getFromCache cacheKey c in
    if truthy cachedData then (Resolved cachedData, c1)
    else fetch_and_cache cacheKey ("/habits/" ++ string_of_Z id) c1.

(** The tail shared by the four writing methods: fetch, then
    [clearCache()] if nothing was thrown *)
Definition fetch_and_clear (url : string) (options : RequestInit) : Task Json :=
  fun c =>
    match fetchWithErrorHandling url options c with
    | (Resolved response, c') => (Resolved response, clearCache c')
    | (Rejected e, c') => (Rejected e, c')
    end.

Definition createHabit (data : Json) : Task Json :=
  fetch_and_clear "/habits" (mkInit POST (Some data)).

Definition updateHabit (id : Z) (data : Json) : Task Json :=
  fetch_and_clear ("/habits/" ++ string_of_Z id) (mkInit PUT (Some data)).

Definition deleteHabit (id : Z) : Task Json :=
  fetch_and_clear ("/habits/" ++ string_of_Z id) (mkInit DELETE None).

(** [date] is a valid [Date], if given *)
Definition completeHabit (id : Z) (date : option Z) : Task Json :=
  fun c =>
    let completed_at :=
      match date with
      | Some d => Index.or_else (Some (toISOString P d)) (toISOString P (now c))
      | None => toISOString P (now c)
      end in
    fetch_and_clear ("/habits/" ++ string_of_Z id ++ "/complete")
      (mkInit POST (Some (JObject [("completed_at"%string, JString completed_at)])))
      c.

End Service.
End HabitService.

(** One of the four writing methods of the service *)
Inductive Write : Type :=
| Create (data : HabitService.Json)
| Update (id : Z) (data : HabitService.Json)
| Delete (id : Z)
| Complete (id : Z) (date : option Z).

Definition perform {Net : Type}
    (fetch : string -> HabitService.RequestInit -> Z -> Net
             -> HabitService.FetchResult * Z * Net)
    (base : string) (P : Platform) (op : Write)
    : HabitService.Task HabitService.Json :=
  match op with
  | Create data => HabitService.createHabit fetch base data
  | Update id data => HabitService.updateHabit fetch base id data
  | Delete id => HabitService.deleteHabit fetch base id
  | Complete id date => HabitService.completeHabit fetch base P id date
  end.

(** Worked example: a network that answers every request after 120
    milliseconds, GET with an empty list, anything else with a 500 whose
    body is the backend's error object; its state counts the requests. *)
Module Wire.

Definition fetch (url : string) (options : HabitService.RequestInit)
    (t : Z) (n : nat) : HabitService.FetchResult * Z * nat :=
  match HabitService.method options with
  | HabitService.GET =>
      (HabitService.ResponseOk (inl (HabitService.JArray [])), t + 120, S n)
  | _ =>
      (HabitService.ResponseNotOk (inl (Some "Failed to delete habit"%string)),
       t + 120, S n)
  end.

Definition base : string := "http://localhost:3001/api".

(** A client that cached the list a minute ago. *)
Definition client : HabitService.Client :=
  HabitService.mkClient
    [("habits"%string,
      HabitService.mkEntry
        (HabitService.JArray [HabitService.JString "Read"]) (Sample.evening - 60000))]
    Sample.evening 0%nat [].

End Wire.

(** Worked example, continued: habit 3 is completed with no
    [completed_at], and its streak is asked for in the same instant. *)
Module Completed.

Definition request : Index.CompleteHabitBody := Index.mkCompleteBody None.

Definition world : World :=
  mkWorld
    (db (snd (Index.completeHabit RefPlatform.utc 3 request Sample.world)))
    [] Sample.evening [].

End Completed.

(** * Properties *)

(** ** Day arithmetic *)

Lemma msPerDay_pos : 0 < JsDate.msPerDay.
Proof. reflexivity. Qed.

Lemma diffDays_midnights (a b off : Z) :
  JsDate.diffDays (a * JsDate.msPerDay - off) (b * JsDate.msPerDay - off)
  = a - b.
Proof.
  unfold JsDate.diffDays.
  replace (a * JsDate.msPerDay - off - (b * JsDate.msPerDay - off))
    with ((a - b) * JsDate.msPerDay) by ring.
  apply Z.div_mul. pose proof msPerDay_pos. lia.
Qed.

Lemma diffDays_utc (t d : Z) :
  JsDate.diffDays t (d * JsDate.msPerDay) = JsDate.utcDay t - d.
Proof.
  unfold JsDate.diffDays, JsDate.utcDay.
  replace (t - d * JsDate.msPerDay) with (t + (- d) * JsDate.msPerDay) by ring.
  rewrite Z.div_add by (pose proof msPerDay_pos; lia). ring.
Qed.

Lemma utcDay_midnight (d : Z) : JsDate.utcDay (d * JsDate.msPerDay) = d.
Proof.
  unfold JsDate.utcDay. apply Z.div_mul. pose proof msPerDay_pos. lia.
Qed.

Lemma utcDay_ofSqlDate (d : option Z) :
  JsDate.utcDay (JsDate.ofSqlDate d) = match d with Some x => x | None => 0 end.
Proof.
  destruct d as [x|]; simpl.
  - apply utcDay_midnight.
  - reflexivity.
Qed.

Lemma ofSqlDate_midnight (d : option Z) :
  JsDate.ofSqlDate d = JsDate.utcDay (JsDate.ofSqlDate d) * JsDate.msPerDay.
Proof.
  rewrite utcDay_ofSqlDate. destruct d; reflexivity.
Qed.

(** The local day of a UTC midnight is the UTC day shifted by the whole
    days in the offset (0 east of Greenwich, -1 west of it). *)
Lemma localDay_ofSqlDate (off : Z) (d : option Z) :
  JsDate.localDay off (JsDate.ofSqlDate d)
  = JsDate.utcDay (JsDate.ofSqlDate d) + off / JsDate.msPerDay.
Proof.
  rewrite (ofSqlDate_midnight d) at 1. unfold JsDate.localDay.
  rewrite Z.add_comm, Z.div_add by (pose proof msPerDay_pos; lia). ring.
Qed.

(** Adding the offset carries into the next day exactly when the two
    times of day add up to a day or more. *)
Lemma localDay_no_carry (off t : Z) :
  t mod JsDate.msPerDay + off mod JsDate.msPerDay < JsDate.msPerDay ->
  JsDate.localDay off t = JsDate.utcDay t + off / JsDate.msPerDay.
Proof.
  intros H. unfold JsDate.localDay, JsDate.utcDay.
  pose proof msPerDay_pos as D.
  pose proof (Z.div_mod t JsDate.msPerDay ltac:(lia)) as Ht.
  pose proof (Z.div_mod off JsDate.msPerDay ltac:(lia)) as Ho.
  pose proof (Z.mod_pos_bound t JsDate.msPerDay D).
  pose proof (Z.mod_pos_bound off JsDate.msPerDay D).
  symmetry. apply Z.div_unique with (r := t mod JsDate.msPerDay + off mod JsDate.msPerDay); lia.
Qed.

Lemma localDay_carry (off t : Z) :
  JsDate.msPerDay <= t mod JsDate.msPerDay + off mod JsDate.msPerDay ->
  JsDate.localDay off t = JsDate.utcDay t + off / JsDate.msPerDay + 1.
Proof.
  intros H. unfold JsDate.localDay, JsDate.utcDay.
  pose proof msPerDay_pos as D.
  pose proof (Z.div_mod t JsDate.msPerDay ltac:(lia)) as Ht.
  pose proof (Z.div_mod off JsDate.msPerDay ltac:(lia)) as Ho.
  pose proof (Z.mod_pos_bound t JsDate.msPerDay D).
  pose proof (Z.mod_pos_bound off JsDate.msPerDay D).
  symmetry.
  apply Z.div_unique
    with (r := t mod JsDate.msPerDay + off mod JsDate.msPerDay - JsDate.msPerDay); lia.
Qed.

(** ** The two loops against the algorithm of the specification *)

Lemma scan_shift (k cursor : Z) (streak : nat) (dates : list Z) :
  Spec.scan (cursor + k) streak (map (fun d => d + k) dates)
  = Spec.scan cursor streak dates.
Proof.
  revert cursor streak.
  induction dates as [|d rest IH]; intros cursor streak; simpl.
  - reflexivity.
  - replace (cursor + k - (d + k)) with (cursor - d) by ring.
    destruct (cursor - d <=? 1); [apply IH | reflexivity].
Qed.

Lemma index_loop_scan (P : Platform) (entries : list (option Z))
    (streak : nat) (c : Z) :
  Index.streak_loop P entries streak (c * JsDate.msPerDay - tzOffset P)
  = Spec.scan c streak
      (map (fun d => JsDate.localDay (tzOffset P) (JsDate.ofSqlDate d)) entries).
Proof.
  revert streak c.
  induction entries as [|d rest IH]; intros streak c.
  - reflexivity.
  - cbn [Index.streak_loop map Spec.scan].
    unfold JsDate.setHours0.
    fold (JsDate.localDay (tzOffset P) (JsDate.ofSqlDate d)).
    rewrite diffDays_midnights.
    destruct (_ <=? 1); [apply IH | reflexivity].
Qed.

Lemma repo_loop_scan (entries : list (option Z)) (streak : nat) (t : Z) :
  HabitRepository.streak_loop entries streak t
  = Spec.scan (JsDate.utcDay t) streak
      (map (fun d => JsDate.utcDay (JsDate.ofSqlDate d)) entries).
Proof.
  revert streak t.
  induction entries as [|d rest IH]; intros streak t.
  - reflexivity.
  - cbn [HabitRepository.streak_loop map Spec.scan].
    rewrite (ofSqlDate_midnight d) at 1.
    rewrite diffDays_utc.
    destruct (_ <=? 1); [apply IH | reflexivity].
Qed.

(** ** Running the monad *)


Lemma query_ok {A} (q : Database -> A) (w : World) :
  next_fault w = None -> query q w = (Resolved (q (db w)), served w).
Proof. intros H. unfold query, driver. rewrite H. reflexivity. Qed.

Lemma driver_fail {A} (stmt : Z -> Database -> A * Database) (w : World)
    (msg : string) :
  next_fault w = Some msg -> driver stmt w = (Rejected (mkError msg), served w).
Proof. intros H. unfold driver. rewrite H. reflexivity. Qed.

Lemma exec_ok (u : Database -> Database) (w : World) :
  next_fault w = None ->
  exec u w = (Resolved tt,
              mkWorld (u (db w)) (tl (faults w)) (clock w) (console w)).
Proof. intros H. unfold exec, driver. rewrite H. reflexivity. Qed.


Lemma index_calculateStreak_run (P : Platform) (habitId : Z) (w : World) :
  fst (Index.calculateStreak P habitId w)
  = Resolved (index_streak_value P habitId w).
Proof.
  unfold Index.calculateStreak, index_streak_value, try_catch, bind, query,
    driver.
  destruct (next_fault w) as [msg|]; [reflexivity|].
  cbn [db]. destruct (Sql.select_entry_dates P habitId (db w)); reflexivity.
Qed.

Lemma repo_calculateStreak_run (P : Platform) (habitId : Z) (w : World) :
  fst (HabitRepository.calculateStreak P habitId w)
  = Resolved (repo_streak_value P habitId w).
Proof.
  unfold HabitRepository.calculateStreak, repo_streak_value, try_catch, bind,
    query, driver.
  destruct (next_fault w) as [msg|]; reflexivity.
Qed.

(** ** The streak calculator *)

(** The value of index.ts's [calculateStreak], in local days. *)
Lemma index_streak_value_spec (P : Platform) (habitId : Z) (w : World) :
  next_fault w = None ->
  index_streak_value P habitId w
  = Spec.streak (JsDate.localDay (tzOffset P) (clock w))
      (map (fun d => JsDate.localDay (tzOffset P) (JsDate.ofSqlDate d))
         (Sql.select_entry_dates P habitId (db w))).
Proof.
  intros Hok. unfold index_streak_value. rewrite Hok.
  destruct (Sql.select_entry_dates P habitId (db w)) as [|d rest] eqn:E.
  - reflexivity.
  - unfold JsDate.setHours0.
    fold (JsDate.localDay (tzOffset P) (clock w)).
    rewrite index_loop_scan. reflexivity.
Qed.

(** The value of the repository's [calculateStreak], in UTC days. *)
Lemma repo_streak_value_spec (P : Platform) (habitId : Z) (w : World) :
  next_fault w = None ->
  repo_streak_value P habitId w
  = Spec.streak (JsDate.utcDay (clock w))
      (map (fun d => JsDate.utcDay (JsDate.ofSqlDate d))
         (Sql.select_entry_dates P habitId (db w))).
Proof.
  intros Hok. unfold repo_streak_value. rewrite Hok, repo_loop_scan.
  destruct (Sql.select_entry_dates P habitId (db w)); reflexivity.
Qed.



Lemma scan_S (cursor : Z) (streak : nat) (dates : list Z) :
  Spec.scan cursor (S streak) dates = S (Spec.scan cursor streak dates).
Proof.
  revert cursor streak.
  induction dates as [|d rest IH]; intros cursor streak; simpl.
  - reflexivity.
  - destruct (cursor - d <=? 1); [apply IH | reflexivity].
Qed.

Lemma scan_ge (cursor : Z) (streak : nat) (dates : list Z) :
  (streak <= Spec.scan cursor streak dates)%nat.
Proof.
  revert cursor streak.
  induction dates as [|d rest IH]; intros cursor streak; simpl.
  - lia.
  - destruct (cursor - d <=? 1); [|lia].
    specialize (IH d (S streak)). lia.
Qed.

(** A second entry on the day of an entry that the scan reaches is
    counted as well. *)
Lemma scan_duplicate (pre post : list Z) (d cursor : Z) (streak : nat) :
  (streak + List.length pre < Spec.scan cursor streak (pre ++ d :: post))%nat ->
  Spec.scan cursor streak (pre ++ d :: d :: post)
  = S (Spec.scan cursor streak (pre ++ d :: post)).
Proof.
  revert cursor streak.
  induction pre as [|p pre IH]; intros cursor streak; cbn [app List.length Spec.scan].
  - destruct (cursor - d <=? 1); [|lia].
    intros _. rewrite Z.sub_diag. cbn. apply scan_S.
  - destruct (cursor - p <=? 1); [|lia].
    intros H. apply IH. lia.
Qed.

Lemma streak_duplicate (today : Z) (pre post : list Z) (d : Z) :
  (List.length pre < Spec.streak today (pre ++ d :: post))%nat ->
  Spec.streak today (pre ++ d :: d :: post)
  = S (Spec.streak today (pre ++ d :: post)).
Proof.
  intros H.
  assert (E : forall l, Spec.streak today (pre ++ d :: l)
                        = Spec.scan today 0%nat (pre ++ d :: l))
    by (intros l; destruct pre; reflexivity).
  rewrite !E in *. apply scan_duplicate. exact H.
Qed.

(** C2. The streak counts entries, not days: when the entry list holds a
    second entry on the date of an entry inside the unbroken run, the
    streak is one more than without it.  (The worked example below is
    today, today, yesterday, which gives 3.) *)
Theorem duplicate_same_day_entry_is_counted (P : Platform) (habitId : Z)
    (w w2 : World) (pre post : list (option Z)) (d : option Z) (n m : nat) :
  next_fault w = None -> next_fault w2 = None -> clock w2 = clock w ->
  Sql.select_entry_dates P habitId (db w) = pre ++ d :: post ->
  Sql.select_entry_dates P habitId (db w2) = pre ++ d :: d :: post ->
  fst (Index.calculateStreak P habitId w) = Resolved n ->
  fst (HabitRepository.calculateStreak P habitId w) = Resolved m ->
  (List.length pre < n)%nat -> (List.length pre < m)%nat ->
  fst (Index.calculateStreak P habitId w2) = Resolved (S n)
  /\ fst (HabitRepository.calculateStreak P habitId w2) = Resolved (S m).
Proof.
  intros Hok Hok2 Hclock E E2 Hn Hm Ln Lm.
  rewrite index_calculateStreak_run in Hn |- *.
  rewrite repo_calculateStreak_run in Hm |- *.
  injection Hn as Hn. injection Hm as Hm.
  rewrite index_streak_value_spec in Hn |- * by assumption.
  rewrite repo_streak_value_spec in Hm |- * by assumption.
  rewrite Hclock, E2. rewrite E in Hn, Hm.
  rewrite !map_app in *. cbn [map] in *.
  split; f_equal.
  - rewrite <- Hn. apply streak_duplicate. rewrite length_map. lia.
  - rewrite <- Hm. apply streak_duplicate. rewrite length_map. lia.
Qed.

Lemma duplicate_same_day_entry_is_counted_witness :
  fst (Index.calculateStreak RefPlatform.utc 1 Sample.world_twice)
  = Resolved 3%nat
  /\ fst (HabitRepository.calculateStreak RefPlatform.utc 1 Sample.world_twice)
     = Resolved 3%nat.
Proof.
  apply (duplicate_same_day_entry_is_counted RefPlatform.utc 1
           Sample.world Sample.world_twice
           [] [Some 19791] (Some 19792) 2 2);
    try reflexivity; simpl; lia.
Defined.

(** Today, today, yesterday gives 3 at every clock value and in every
    time zone. *)
Lemma today_today_yesterday (P : Platform) (habitId : Z) (w : World) :
  next_fault w = None ->
  Sql.select_entry_dates P habitId (db w)
  = [Some (JsDate.utcDay (clock w)); Some (JsDate.utcDay (clock w));
     Some (JsDate.utcDay (clock w) - 1)] ->
  fst (Index.calculateStreak P habitId w) = Resolved 3%nat
  /\ fst (HabitRepository.calculateStreak P habitId w) = Resolved 3%nat.
Proof.
  intros Hok E.
  rewrite index_calculateStreak_run, repo_calculateStreak_run.
  rewrite index_streak_value_spec, repo_streak_value_spec by assumption.
  rewrite E. cbn [map]. rewrite !localDay_ofSqlDate, !utcDay_ofSqlDate.
  unfold Spec.streak, Spec.scan.
  set (today := JsDate.utcDay (clock w)).
  set (k := tzOffset P / JsDate.msPerDay).
  split; f_equal.
  - assert (C : JsDate.localDay (tzOffset P) (clock w) = today + k
                \/ JsDate.localDay (tzOffset P) (clock w) = today + k + 1).
    { pose proof (localDay_no_carry (tzOffset P) (clock w)).
      pose proof (localDay_carry (tzOffset P) (clock w)).
      subst today k. lia. }
    replace (JsDate.localDay (tzOffset P) (clock w) - (today + k) <=? 1)
      with true by (symmetry; apply Z.leb_le; lia).
    replace (today + k - (today + k) <=? 1)
      with true by (symmetry; apply Z.leb_le; lia).
    replace (today + k - (today - 1 + k) <=? 1)
      with true by (symmetry; apply Z.leb_le; lia).
    reflexivity.
  - replace (today - today <=? 1) with true by (symmetry; apply Z.leb_le; lia).
    replace (today - (today - 1) <=? 1)
      with true by (symmetry; apply Z.leb_le; lia).
    reflexivity.
Qed.

Lemma filter_none {A} (f : A -> bool) (l : list A) :
  (forall x, In x l -> f x = false) -> filter f l = [].
Proof.
  induction l as [|x l IH]; intros H; simpl.
  - reflexivity.
  - rewrite (H x (or_introl eq_refl)). apply IH.
    intros y Hy. apply H. right. exact Hy.
Qed.

(** C3. A habit without completion-entries has streak 0, in both
    implementations (and whether or not the query itself succeeds). *)
Theorem no_entries_streak_zero (P : Platform) (habitId : Z) (w : World) :
  (forall e, In e (habit_entries (db w)) -> HabitEntry.habit_id e <> habitId) ->
  fst (Index.calculateStreak P habitId w) = Resolved 0%nat
  /\ fst (HabitRepository.calculateStreak P habitId w) = Resolved 0%nat.
Proof.
  intros Hnone.
  assert (E : Sql.select_entry_dates P habitId (db w) = []).
  { unfold Sql.select_entry_dates. rewrite filter_none; [reflexivity|].
    intros e He. apply Z.eqb_neq. apply Hnone. exact He. }
  rewrite index_calculateStreak_run, repo_calculateStreak_run.
  unfold index_streak_value, repo_streak_value. rewrite E.
  destruct (next_fault w); split; reflexivity.
Qed.

Lemma no_entries_streak_zero_witness :
  (forall e, In e (habit_entries (db Sample.world)) ->
             HabitEntry.habit_id e <> 3)
  /\ fst (Index.calculateStreak RefPlatform.utc 3 Sample.world)
     = Resolved 0%nat
  /\ fst (HabitRepository.calculateStreak RefPlatform.utc 3 Sample.world)
     = Resolved 0%nat.
Proof.
  assert (H : forall e, In e (habit_entries (db Sample.world)) ->
                        HabitEntry.habit_id e <> 3).
  { simpl. intros e [E|[E|[E|[]]]]; subst e; simpl; lia. }
  split; [exact H|].
  exact (no_entries_streak_zero RefPlatform.utc 3 Sample.world H).
Defined.

(** C4. [calculateStreak] never rejects: it always resolves to a number,
    and when the entries query fails that number is 0. *)
Theorem calculateStreak_swallows_failures (P : Platform) (habitId : Z)
    (w : World) :
  exists n m : nat,
    fst (Index.calculateStreak P habitId w) = Resolved n
    /\ fst (HabitRepository.calculateStreak P habitId w) = Resolved m
    /\ (next_fault w <> None -> n = 0%nat /\ m = 0%nat).
Proof.
  exists (index_streak_value P habitId w), (repo_streak_value P habitId w).
  split; [apply index_calculateStreak_run|].
  split; [apply repo_calculateStreak_run|].
  unfold index_streak_value, repo_streak_value.
  destruct (next_fault w); [split; reflexivity | intros H; now elim H].
Qed.

Lemma calculateStreak_swallows_failures_witness :
  next_fault Sample.world_down <> None
  /\ fst (Index.calculateStreak RefPlatform.utc 1 Sample.world_down)
     = Resolved 0%nat
  /\ fst (HabitRepository.calculateStreak RefPlatform.utc 1 Sample.world_down)
     = Resolved 0%nat.
Proof.
  assert (F : next_fault Sample.world_down <> None) by (simpl; discriminate).
  split; [exact F|].
  destruct (calculateStreak_swallows_failures RefPlatform.utc 1
              Sample.world_down) as (n & m & Hn & Hm & Hz).
  destruct (Hz F) as [Zn Zm]. rewrite Hn, Hm, Zn, Zm. split; reflexivity.
Defined.


Lemma streak_values_agree (P : Platform) (habitId : Z) (w : World) :
  clock w mod JsDate.msPerDay + tzOffset P mod JsDate.msPerDay
    < JsDate.msPerDay ->
  index_streak_value P habitId w = repo_streak_value P habitId w.
Proof.
  intros Hcarry. unfold index_streak_value, repo_streak_value.
  destruct (next_fault w); [reflexivity|].
  destruct (Sql.select_entry_dates P habitId (db w)) as [|d rest];
    [reflexivity|].
  unfold JsDate.setHours0. fold (JsDate.localDay (tzOffset P) (clock w)).
  rewrite index_loop_scan, repo_loop_scan.
  rewrite (localDay_no_carry _ _ Hcarry).
  rewrite <- (scan_shift (tzOffset P / JsDate.msPerDay) (JsDate.utcDay (clock w))).
  rewrite map_map. f_equal.
  apply map_ext. intros e. apply localDay_ofSqlDate.
Qed.



(** On a server that runs in UTC the two always agree. *)
Corollary streaks_agree_in_utc (P : Platform) (habitId : Z) (w : World) :
  tzOffset P = 0 ->
  fst (Index.calculateStreak P habitId w)
  = fst (HabitRepository.calculateStreak P habitId w).
Proof.
  intros H.
  rewrite index_calculateStreak_run, repo_calculateStreak_run.
  f_equal. apply streak_values_agree. rewrite H.
  rewrite Z.mod_0_l by (pose proof msPerDay_pos; lia).
  pose proof (Z.mod_pos_bound (clock w) JsDate.msPerDay msPerDay_pos). lia.
Qed.

(** ** ORDER BY *)

Lemma ascii_compare_refl (a : ascii) : Ascii.compare a a = Eq.
Proof. unfold Ascii.compare. apply N.compare_refl. Qed.

Lemma text_leb_trans (a b c : string) :
  text_leb a b = true -> text_leb b c = true -> text_leb a c = true.
Proof.
  unfold text_leb, String.leb. revert b c.
  induction a as [|x a IH]; intros [|y b] [|z c]; simpl; try congruence.
  unfold Ascii.compare.
  destruct (N.compare_spec (N_of_ascii x) (N_of_ascii y)) as [Exy|Lxy|Gxy];
  destruct (N.compare_spec (N_of_ascii y) (N_of_ascii z)) as [Eyz|Lyz|Gyz];
  destruct (N.compare_spec (N_of_ascii x) (N_of_ascii z)) as [Exz|Lxz|Gxz];
    try congruence; try lia.
  apply IH.
Qed.

Lemma text_leb_total (a b : string) :
  text_leb a b = true \/ text_leb b a = true.
Proof. apply String.leb_total. Qed.

Lemma habit_before_order (a b : Habit.t) :
  habit_before a b = true <-> habit_order a b.
Proof.
  unfold habit_before, habit_order.
  rewrite orb_true_iff, andb_true_iff, Z.ltb_lt, Z.eqb_eq. reflexivity.
Qed.

Lemma habit_before_total (a b : Habit.t) :
  habit_before a b = true \/ habit_before b a = true.
Proof.
  rewrite !habit_before_order. unfold habit_order.
  destruct (text_leb_total (Habit.created_at a) (Habit.created_at b));
    destruct (Z.lt_total (Habit.priority a) (Habit.priority b)) as [L|[E|G]];
    try (left; left; lia); try (right; left; lia).
  - right. right. split; [lia | assumption].
  - left. right. split; [lia | assumption].
Qed.

Lemma habit_before_trans (a b c : Habit.t) :
  habit_before a b = true -> habit_before b c = true ->
  habit_before a c = true.
Proof.
  rewrite !habit_before_order. unfold habit_order.
  intros [L1|[E1 T1]] [L2|[E2 T2]]; try (left; lia).
  right. split; [lia|]. eapply text_leb_trans; eassumption.
Qed.

Section OrderByFacts.
Context {A : Type} (leb : A -> A -> bool).
Hypothesis leb_total : forall a b, leb a b = true \/ leb b a = true.
Hypothesis leb_trans :
  forall a b c, leb a b = true -> leb b c = true -> leb a c = true.

Lemma insert_row_perm (x : A) (l : list A) :
  Permutation (x :: l) (insert_row leb x l).
Proof.
  induction l as [|y l IH]; simpl.
  - apply Permutation_refl.
  - destruct (leb x y).
    + apply Permutation_refl.
    + eapply perm_trans; [apply perm_swap|]. apply perm_skip. exact IH.
Qed.

Lemma order_by_perm (l : list A) : Permutation l (order_by leb l).
Proof.
  induction l as [|x l IH]; simpl.
  - apply perm_nil.
  - eapply perm_trans; [apply perm_skip; exact IH|]. apply insert_row_perm.
Qed.

Lemma insert_row_sorted (x : A) (l : list A) :
  StronglySorted (fun a b => leb a b = true) l ->
  StronglySorted (fun a b => leb a b = true) (insert_row leb x l).
Proof.
  induction 1 as [|y l Hs IH Hy]; simpl.
  - constructor; constructor.
  - destruct (leb x y) eqn:E.
    + constructor.
      * constructor; assumption.
      * constructor; [exact E|].
        eapply Forall_impl; [|exact Hy].
        intros z Hz. eapply leb_trans; eassumption.
    + constructor; [exact IH|].
      eapply Permutation_Forall; [apply insert_row_perm|].
      constructor; [|exact Hy].
      destruct (leb_total x y) as [H|H]; [congruence | exact H].
Qed.

Lemma order_by_sorted (l : list A) :
  StronglySorted (fun a b => leb a b = true) (order_by leb l).
Proof.
  induction l as [|x l IH]; simpl.
  - constructor.
  - apply insert_row_sorted. exact IH.
Qed.

End OrderByFacts.

Lemma select_habits_ordered_sorted (d : Database) :
  StronglySorted habit_order (Sql.select_habits_ordered d).
Proof.
  unfold Sql.select_habits_ordered.
  pose proof (order_by_sorted habit_before habit_before_total
                habit_before_trans (habits d)) as H.
  induction H as [|x l Hs IH Hx]; constructor.
  - exact IH.
  - eapply Forall_impl; [|exact Hx].
    intros y Hy. apply habit_before_order. exact Hy.
Qed.

Lemma select_habits_ordered_perm (d : Database) :
  Permutation (habits d) (Sql.select_habits_ordered d).
Proof. apply order_by_perm. Qed.

(** ** The persistence gateway *)

Lemma healthy_next (w : World) : healthy w -> next_fault w = None.
Proof.
  unfold healthy, next_fault. intros H.
  destruct (faults w) as [|[msg|] rest]; try reflexivity.
  inversion H; discriminate.
Qed.

Lemma healthy_served (w : World) : healthy w -> healthy (served w).
Proof.
  unfold healthy, served. simpl. intros H.
  destruct (faults w); [constructor | inversion H; assumption].
Qed.

Lemma index_calculateStreak_ok (P : Platform) (habitId : Z) (w : World) :
  next_fault w = None ->
  Index.calculateStreak P habitId w
  = (Resolved (index_streak_value P habitId w), served w).
Proof.
  intros H.
  unfold Index.calculateStreak, index_streak_value, try_catch, bind.
  rewrite query_ok by exact H. rewrite H.
  cbn [db]. destruct (Sql.select_entry_dates P habitId (db w)); reflexivity.
Qed.

(** The loop of [getHabits] on a healthy connection: every habit comes
    back, in the order it went in, and the tables are only read. *)
Lemma getHabits_loop (P : Platform) (l : list Habit.t) (w : World) :
  healthy w ->
  exists hs w',
    Index.for_of l (fun habit =>
      entries <- driver (fun now d =>
        (Sql.select_recent_entries P now (Habit.id habit) d, d)) ;;
      streak <- Index.calculateStreak P (Habit.id habit) ;;
      ret (Index.mkEnriched habit entries streak)) w
    = (Resolved hs, w')
    /\ map Index.row hs = l /\ healthy w' /\ db w' = db w.
Proof.
  revert w. induction l as [|h l IH]; intros w Hw.
  - exists [], w. repeat split. exact Hw.
  - cbn [Index.for_of]. unfold bind at 1. unfold bind at 1.
    unfold driver at 1. rewrite (healthy_next w Hw).
    change (mkWorld (db w) (tl (faults w)) (clock w) (console w)) with (served w).
    pose proof (healthy_served w Hw) as Hw1.
    unfold bind at 1.
    rewrite index_calculateStreak_ok by (apply healthy_next; exact Hw1).
    unfold ret at 1.
    pose proof (healthy_served _ Hw1) as Hw2.
    destruct (IH _ Hw2) as (hs & w' & E & Hmap & Hh & Hdb).
    unfold bind at 1. rewrite E. unfold ret.
    eexists; eexists. split; [reflexivity|].
    cbn [map Index.row]. rewrite Hmap. repeat split; assumption.
Qed.

(** C8. [findAll] and GET /habits list every stored habit, highest
    priority first and, within a priority, latest [created_at] first;
    when the query fails the repository rejects with its own error and
    the endpoint answers 500 with its own error object. *)
Theorem listHabits_ordered_or_wrapped_error (P : Platform) (w : World) :
  Permutation (habits (db w)) (Sql.select_habits_ordered (db w))
  /\ StronglySorted habit_order (Sql.select_habits_ordered (db w))
  /\ (next_fault w = None ->
      fst (HabitRepository.findAll w)
      = Resolved (Sql.select_habits_ordered (db w)))
  /\ (healthy w ->
      exists hs,
        fst (Index.getHabits P w) = Resolved (Index.json (Index.HabitList hs))
        /\ map Index.row hs = Sql.select_habits_ordered (db w))
  /\ (forall msg, next_fault w = Some msg ->
      fst (HabitRepository.findAll w)
      = Rejected (mkError "Failed to fetch habits from database")
      /\ fst (Index.getHabits P w)
         = Resolved (Index.mkResponse 500
                       (Index.Failure "Failed to fetch habits" msg))).
Proof.
  split; [apply select_habits_ordered_perm|].
  split; [apply select_habits_ordered_sorted|].
  split; [|split].
  - intros H. unfold HabitRepository.findAll, try_catch.
    rewrite query_ok by exact H. reflexivity.
  - intros H. unfold Index.getHabits, try_catch. unfold bind at 1.
    rewrite query_ok by (apply healthy_next; exact H).
    destruct (getHabits_loop P (Sql.select_habits_ordered (db w)) (served w)
                (healthy_served w H)) as (hs & w' & E & Hmap & _ & _).
    unfold bind at 1. rewrite E. exists hs. split; [reflexivity | exact Hmap].
  - intros msg H. split.
    + unfold HabitRepository.findAll, try_catch, query.
      rewrite (driver_fail _ w msg H). reflexivity.
    + unfold Index.getHabits, try_catch. unfold bind at 1. unfold query.
      rewrite (driver_fail _ w msg H). reflexivity.
Qed.

Lemma listHabits_ordered_or_wrapped_error_witness :
  (next_fault Sample.world = None /\
   fst (HabitRepository.findAll Sample.world)
   = Resolved [Sample.run; Sample.stretch; Sample.read])
  /\ (next_fault Sample.world_down
      = Some "SQLITE_BUSY: database is locked"%string /\
      fst (HabitRepository.findAll Sample.world_down)
      = Rejected (mkError "Failed to fetch habits from database")).
Proof.
  split.
  - split; [reflexivity|].
    destruct (listHabits_ordered_or_wrapped_error RefPlatform.utc Sample.world)
      as (_ & _ & H & _).
    exact (H eq_refl).
  - split; [reflexivity|].
    destruct (listHabits_ordered_or_wrapped_error RefPlatform.utc
                Sample.world_down) as (_ & _ & _ & _ & H).
    exact (proj1 (H _ eq_refl)).
Defined.

Lemma find_absent (id : Z) (l : list Habit.t) :
  (forall h, In h l -> Habit.id h <> id) ->
  find (fun h => Habit.id h =? id) l = None.
Proof.
  induction l as [|h l IH]; intros H; simpl.
  - reflexivity.
  - destruct (Z.eqb_spec (Habit.id h) id) as [E|N].
    + exfalso. exact (H h (or_introl eq_refl) E).
    + apply IH. intros h' Hh'. apply H. right. exact Hh'.
Qed.

(** C9. When no habit has the given id, [findById] resolves to
    [undefined] and GET /habits/:id answers 404; neither rejects for the
    absence.  Only a failing query makes [findById] reject, with its own
    error, and the endpoint answer 500. *)
Theorem getHabit_absent_is_not_an_error (id : Z) (w : World) :
  (forall h, In h (habits (db w)) -> Habit.id h <> id) ->
  match next_fault w with
  | None =>
      fst (HabitRepository.findById id w) = Resolved None
      /\ fst (Index.getHabitById id w)
         = Resolved (Index.mkResponse 404 (Index.NotFound "Habit not found"))
  | Some msg =>
      fst (HabitRepository.findById id w)
      = Rejected (mkError ("Failed to fetch habit with id " ++ string_of_Z id))
      /\ fst (Index.getHabitById id w)
         = Resolved (Index.mkResponse 500
                       (Index.Failure "Failed to fetch habit" msg))
  end.
Proof.
  intros Habsent.
  destruct (next_fault w) as [msg|] eqn:F.
  - unfold HabitRepository.findById, Index.getHabitById, try_catch, bind, query.
    rewrite (driver_fail _ w msg F). split; reflexivity.
  - unfold HabitRepository.findById, Index.getHabitById, try_catch, bind.
    rewrite query_ok by exact F.
    unfold Sql.select_habit. rewrite (find_absent id _ Habsent).
    split; reflexivity.
Qed.

Lemma getHabit_absent_is_not_an_error_witness :
  (forall h, In h (habits (db Sample.world)) -> Habit.id h <> 7)
  /\ fst (HabitRepository.findById 7 Sample.world) = Resolved None
  /\ fst (Index.getHabitById 7 Sample.world)
     = Resolved (Index.mkResponse 404 (Index.NotFound "Habit not found")).
Proof.
  assert (H : forall h, In h (habits (db Sample.world)) -> Habit.id h <> 7).
  { simpl. intros h [E|[E|[E|[]]]]; subst h; simpl; lia. }
  split; [exact H|].
  exact (getHabit_absent_is_not_an_error 7 Sample.world H).
Defined.

Lemma filter_filter_weaker {A} (f g : A -> bool) (l : list A) :
  (forall x, f x = true -> g x = true) ->
  filter f (filter g l) = filter f l.
Proof.
  intros H. induction l as [|x l IH]; simpl.
  - reflexivity.
  - destruct (g x) eqn:G; simpl.
    + rewrite IH. reflexivity.
    + destruct (f x) eqn:F; [|exact IH].
      rewrite (H x F) in G. discriminate.
Qed.

Lemma find_filter_weaker {A} (f g : A -> bool) (l : list A) :
  (forall x, f x = true -> g x = true) ->
  find f (filter g l) = find f l.
Proof.
  intros H. induction l as [|x l IH]; simpl.
  - reflexivity.
  - destruct (g x) eqn:G; simpl.
    + rewrite IH. reflexivity.
    + destruct (f x) eqn:F; [|exact IH].
      rewrite (H x F) in G. discriminate.
Qed.

(** Both delete paths, when the two statements go through. *)
Lemma delete_ok (id : Z) (w : World) :
  next_fault w = None ->
  next_fault (mkWorld (Sql.delete_entries_of id (db w)) (tl (faults w))
                (clock w) (console w)) = None ->
  db (snd (HabitRepository.delete id w))
  = Sql.delete_habit id (Sql.delete_entries_of id (db w))
  /\ Index.deleteHabit id w
     = (Resolved (Index.json Index.Success), snd (HabitRepository.delete id w)).
Proof.
  intros F1 F2.
  unfold HabitRepository.delete, Index.deleteHabit, try_catch, bind.
  rewrite exec_ok by exact F1. rewrite exec_ok by exact F2.
  split; reflexivity.
Qed.

Lemma delete_resolved (id : Z) (w : World) :
  fst (HabitRepository.delete id w) = Resolved tt ->
  next_fault w = None
  /\ next_fault (mkWorld (Sql.delete_entries_of id (db w)) (tl (faults w))
                   (clock w) (console w)) = None.
Proof.
  unfold HabitRepository.delete, try_catch, bind.
  destruct (next_fault w) as [msg|] eqn:F1.
  - unfold exec at 1. rewrite (driver_fail _ w msg F1). simpl. discriminate.
  - rewrite exec_ok by exact F1.
    destruct (next_fault (mkWorld (Sql.delete_entries_of id (db w))
                            (tl (faults w)) (clock w) (console w)))
      as [msg|] eqn:F2.
    + unfold exec. rewrite (driver_fail _ _ msg F2). simpl. discriminate.
    + intros _. split; reflexivity.
Qed.

(** The entries go first: when the second statement fails, the habit's
    entries are already deleted and the habit row is still there. *)
Lemma delete_entries_before_habit (id : Z) (w : World) (msg : string) :
  next_fault w = None ->
  next_fault (mkWorld (Sql.delete_entries_of id (db w)) (tl (faults w))
                (clock w) (console w)) = Some msg ->
  fst (HabitRepository.delete id w)
  = Rejected (mkError ("Failed to delete habit with id " ++ string_of_Z id))
  /\ db (snd (HabitRepository.delete id w)) = Sql.delete_entries_of id (db w).
Proof.
  intros F1 F2.
  unfold HabitRepository.delete, try_catch, bind.
  rewrite exec_ok by exact F1.
  unfold exec. rewrite (driver_fail _ _ msg F2).
  split; reflexivity.
Qed.

(** C6. Once [delete(id)] has resolved (and likewise once DELETE
    /habits/:id has answered success), the entries left are exactly the
    old entries of other habits and the habits left are exactly the old
    habits with another id: nothing of habit [id] remains, and every
    other habit and its entries read back as before. *)
Theorem delete_cascades_and_frames (id : Z) (w : World) :
  fst (HabitRepository.delete id w) = Resolved tt ->
  let d' := db (snd (HabitRepository.delete id w)) in
  (forall e, In e (habit_entries d')
             <-> In e (habit_entries (db w)) /\ HabitEntry.habit_id e <> id)
  /\ (forall h, In h (habits d')
                <-> In h (habits (db w)) /\ Habit.id h <> id)
  /\ (forall other, other <> id ->
        Sql.select_habit other d' = Sql.select_habit other (db w)
        /\ filter (fun e => HabitEntry.habit_id e =? other) (habit_entries d')
           = filter (fun e => HabitEntry.habit_id e =? other)
               (habit_entries (db w)))
  /\ fst (Index.deleteHabit id w) = Resolved (Index.json Index.Success)
  /\ db (snd (Index.deleteHabit id w)) = d'.
Proof.
  intros Hres d'.
  destruct (delete_resolved id w Hres) as [F1 F2].
  destruct (delete_ok id w F1 F2) as [Hd Hi].
  subst d'. rewrite Hi, Hd. cbn [fst snd Sql.delete_habit Sql.delete_entries_of
    habits habit_entries].
  split; [|split; [|split; [|split; [reflexivity | exact Hd]]]].
  - intros e. rewrite filter_In, negb_true_iff, Z.eqb_neq. reflexivity.
  - intros h. rewrite filter_In, negb_true_iff, Z.eqb_neq. reflexivity.
  - intros other Hother. split.
    + unfold Sql.select_habit. cbn [habits]. apply find_filter_weaker.
      intros h Hh. apply Z.eqb_eq in Hh. apply negb_true_iff, Z.eqb_neq. lia.
    + apply filter_filter_weaker.
      intros e He. apply Z.eqb_eq in He. apply negb_true_iff, Z.eqb_neq. lia.
Qed.

Lemma delete_cascades_and_frames_witness :
  fst (HabitRepository.delete 1 Sample.world) = Resolved tt
  /\ habit_entries (db (snd (HabitRepository.delete 1 Sample.world)))
     = [Sample.run_on_9th]
  /\ habits (db (snd (HabitRepository.delete 1 Sample.world)))
     = [Sample.run; Sample.stretch]
  /\ (forall e,
        In e (habit_entries (db (snd (HabitRepository.delete 1 Sample.world))))
        <-> In e (habit_entries (db Sample.world))
            /\ HabitEntry.habit_id e <> 1).
Proof.
  split; [reflexivity|]. split; [reflexivity|]. split; [reflexivity|].
  exact (proj1 (delete_cascades_and_frames 1 Sample.world eq_refl)).
Defined.

Lemma max_habit_id_bound (l : list Habit.t) (h : Habit.t) :
  In h l -> Habit.id h <= Sql.max_habit_id l.
Proof.
  induction l as [|x l IH]; simpl; [tauto|].
  intros [E|H]; [subst x; lia|]. specialize (IH H). lia.
Qed.

Lemma find_appended (l : list Habit.t) (r : Habit.t) :
  Sql.max_habit_id l < Habit.id r ->
  find (fun h => Habit.id h =? Habit.id r) (l ++ [r]) = Some r.
Proof.
  intros Hfresh.
  assert (H : forall h, In h l -> Habit.id h <> Habit.id r).
  { intros h Hh. pose proof (max_habit_id_bound l h Hh). lia. }
  clear Hfresh. induction l as [|x l IH]; simpl.
  - rewrite Z.eqb_refl. reflexivity.
  - destruct (Z.eqb_spec (Habit.id x) (Habit.id r)) as [E|N].
    + exfalso. exact (H x (or_introl eq_refl) E).
    + apply IH. intros h Hh. apply H. right. exact Hh.
Qed.

(** What [create] and POST /habits leave behind when the INSERT goes
    through. *)
Lemma create_ok (P : Platform) (habit : CreateHabitDTO) (w : World) :
  next_fault w = None ->
  let r := Sql.insert_habit P (clock w) (dto_name habit)
             (dto_description habit) (dto_frequency habit)
             (JSON.stringify (dto_target_days habit)) (dto_priority habit)
             (dto_category habit) (db w) in
  HabitRepository.create P habit w
  = (Resolved (fst r), mkWorld (snd r) (tl (faults w)) (clock w) (console w))
  /\ Index.createHabit P habit w
     = (Resolved (Index.json (Index.CreatedId (fst r))),
        mkWorld (snd r) (tl (faults w)) (clock w) (console w)).
Proof.
  intros F r.
  unfold HabitRepository.create, Index.createHabit, try_catch, bind, driver.
  rewrite F. split; reflexivity.
Qed.

Lemma create_resolved (P : Platform) (habit : CreateHabitDTO) (w w1 : World)
    (id : Z) :
  HabitRepository.create P habit w = (Resolved id, w1) -> next_fault w = None.
Proof.
  destruct (next_fault w) as [msg|] eqn:F; [|reflexivity].
  unfold HabitRepository.create, try_catch.
  rewrite (driver_fail _ w msg F). simpl. discriminate.
Qed.

(** C5. Creating a habit and fetching it by the returned id gives back a
    row with that id whose name, description, frequency, priority and
    category are the supplied values.  Its [target_days] is not: the
    supplied array was stored as [JSON.stringify] text and comes back as
    that text, a string, never parsed.  POST /habits followed by GET
    /habits/:id sends the same row. *)
Theorem create_then_fetch_returns_json_text (P : Platform)
    (habit : CreateHabitDTO) (w w1 w2 : World) (id : Z) :
  HabitRepository.create P habit w = (Resolved id, w1) ->
  db w2 = db w1 -> next_fault w2 = None ->
  exists fetched : Habit.t,
    fst (HabitRepository.findById id w2) = Resolved (Some fetched)
    /\ Habit.id fetched = id
    /\ (forall key, In key dto_keys -> key <> "target_days"%string ->
          row_get fetched key = dto_get habit key)
    /\ row_get fetched "target_days"
       = JsString (JSON.stringify (dto_target_days habit))
    /\ row_get fetched "target_days" <> dto_get habit "target_days"
    /\ fst (Index.createHabit P habit w)
       = Resolved (Index.json (Index.CreatedId id))
    /\ db (snd (Index.createHabit P habit w)) = db w1
    /\ fst (Index.getHabitById id w2)
       = Resolved (Index.json (Index.HabitObject fetched)).
Proof.
  intros Hcreate Hdb F2.
  pose proof (create_resolved P habit w w1 id Hcreate) as F1.
  destruct (create_ok P habit w F1) as [Hrepo Hindex].
  rewrite Hrepo in Hcreate. injection Hcreate as Hid Hw1.
  rewrite Hindex. cbn [fst snd db].
  set (rowid := Z.max (seq_habits (db w)) (Sql.max_habit_id (habits (db w))) + 1)
    in *.
  set (fetched := Habit.mk rowid (dto_name habit) (dto_description habit)
                    (dto_frequency habit)
                    (JSON.stringify (dto_target_days habit))
                    (dto_priority habit) (dto_category habit)
                    (sqlite_current_timestamp P (clock w))).
  assert (Hfind : Sql.select_habit id (db w2) = Some fetched).
  { rewrite Hdb, <- Hw1, <- Hid. unfold Sql.select_habit. cbn [db habits fst snd
      Sql.insert_habit].
    apply (find_appended (habits (db w)) fetched). cbn [Habit.id fetched].
    subst rowid. lia. }
  exists fetched.
  unfold HabitRepository.findById, Index.getHabitById, try_catch, bind.
  rewrite query_ok by exact F2. rewrite Hfind. cbn [fst].
  repeat split.
  - exact Hid.
  - intros key Hkey Hnot. cbn [dto_keys In] in Hkey.
    destruct Hkey as [K|[K|[K|[K|[K|[K|[]]]]]]]; subst key;
      try reflexivity. now elim Hnot.
  - discriminate.
  - rewrite <- Hid. reflexivity.
  - rewrite <- Hw1. reflexivity.
Qed.

(** At the failing input: the new habit gets id 4 and is fetched with
    [target_days] a string where an array went in. *)
Lemma create_then_fetch_returns_json_text_witness :
  exists fetched : Habit.t,
    fst (HabitRepository.findById 4
           (snd (HabitRepository.create RefPlatform.utc Request.meditate
                   Sample.world)))
    = Resolved (Some fetched)
    /\ row_get fetched "name" = JsString "Meditate"
    /\ row_get fetched "target_days"
       = JsString (JSON.stringify ["monday"; "wednesday"]%string)
    /\ dto_get Request.meditate "target_days"
       = JsArray ["monday"; "wednesday"]%string.
Proof.
  destruct (create_then_fetch_returns_json_text RefPlatform.utc
              Request.meditate Sample.world
              (snd (HabitRepository.create RefPlatform.utc Request.meditate
                      Sample.world))
              (snd (HabitRepository.create RefPlatform.utc Request.meditate
                      Sample.world))
              4 eq_refl eq_refl eq_refl)
    as (fetched & Hf & _ & Hkeys & Htd & _).
  exists fetched. split; [exact Hf|]. split; [|split; [exact Htd | reflexivity]].
  apply (Hkeys "name"%string); [left; reflexivity | discriminate].
Defined.


(** POST /habits/:id/complete when both storage calls go through. *)
Lemma completeHabit_run (P : Platform) (habitId : Z)
    (body : Index.CompleteHabitBody) (w : World) :
  next_fault w = None -> next_fault (served w) = None ->
  Index.completeHabit P habitId body w
  = match Sql.select_habit habitId (db w) with
    | None =>
        (Resolved (Index.mkResponse 404 (Index.NotFound "Habit not found")),
         served w)
    | Some _ =>
        (Resolved (Index.json Index.Success),
         mkWorld
           (Sql.insert_entry habitId
              (Index.or_else (Index.completed_at body)
                 (toISOString P (clock w))) (db w))
           (tl (tl (faults w))) (clock w) (console w))
    end.
Proof.
  intros F1 F2.
  unfold Index.completeHabit, try_catch. unfold bind at 1.
  rewrite query_ok by exact F1.
  destruct (Sql.select_habit habitId (db w)) as [h|].
  - unfold bind, new_Date. rewrite exec_ok by exact F2. reflexivity.
  - reflexivity.
Qed.



(** [addEntry] appends one entry for whatever habit id it is given: it
    never looks the habit up. *)
Lemma addEntry_appends_unchecked (habitId : Z) (completedAt : string)
    (w : World) :
  next_fault w = None ->
  fst (HabitRepository.addEntry habitId completedAt w) = Resolved tt
  /\ exists rowid,
       habit_entries (db (snd (HabitRepository.addEntry habitId completedAt w)))
       = habit_entries (db w) ++ [HabitEntry.mk rowid habitId completedAt].
Proof.
  intros F. unfold HabitRepository.addEntry, try_catch.
  rewrite exec_ok by exact F. split; [reflexivity|].
  eexists. reflexivity.
Qed.

(** * Further properties of the gateway *)

(** ** What a request can do to the tables *)

Lemma calculateStreak_reads (P : Platform) (habitId : Z) (w : World) :
  db (snd (Index.calculateStreak P habitId w)) = db w
  /\ faults (snd (Index.calculateStreak P habitId w)) = tl (faults w)
  /\ clock (snd (Index.calculateStreak P habitId w)) = clock w.
Proof.
  unfold Index.calculateStreak, try_catch, bind, query, driver.
  destruct (next_fault w) as [msg|]; [repeat split|].
  cbn [db]. destruct (Sql.select_entry_dates P habitId (db w)); repeat split.
Qed.

Lemma getHabits_loop_reads (P : Platform) (l : list Habit.t) (w : World) :
  db (snd (Index.for_of l (fun habit =>
      entries <- driver (fun now d =>
        (Sql.select_recent_entries P now (Habit.id habit) d, d)) ;;
      streak <- Index.calculateStreak P (Habit.id habit) ;;
      ret (Index.mkEnriched habit entries streak)) w)) = db w.
Proof.
  revert w. induction l as [|h l IH]; intros w; [reflexivity|].
  cbn [Index.for_of]. unfold bind at 1. unfold bind at 1.
  unfold driver at 1.
  destruct (next_fault w) as [msg|]; [reflexivity|].
  set (w1 := mkWorld (db w) (tl (faults w)) (clock w) (console w)).
  unfold bind at 1.
  pose proof (calculateStreak_reads P (Habit.id h) w1) as (Hdb & _ & _).
  pose proof (index_calculateStreak_run P (Habit.id h) w1) as Hrun.
  destruct (Index.calculateStreak P (Habit.id h) w1) as [o w2].
  cbn [fst snd] in *. subst o. unfold ret at 1.
  specialize (IH w2). unfold bind at 1.
  destruct (Index.for_of l _ w2) as [[hs|e] w3]; unfold ret; cbn [snd] in *;
    rewrite IH, Hdb; reflexivity.
Qed.

Lemma getHabits_reads (P : Platform) (w : World) :
  db (snd (Index.getHabits P w)) = db w.
Proof.
  unfold Index.getHabits, try_catch. unfold bind at 1. unfold query, driver.
  destruct (next_fault w) as [msg|]; [reflexivity|].
  set (w1 := mkWorld (db w) (tl (faults w)) (clock w) (console w)).
  pose proof (getHabits_loop_reads P (Sql.select_habits_ordered (db w)) w1) as H.
  unfold bind at 1.
  destruct (Index.for_of _ _ w1) as [[hs|e] w2]; unfold ret, bind, console_error;
    cbn [snd db] in *; exact H.
Qed.

(** The database after POST /habits/:id/complete, whatever fails. *)
Lemma completeHabit_db (P : Platform) (id : Z) (body : Index.CompleteHabitBody)
    (w : World) :
  db (snd (Index.completeHabit P id body w))
  = match next_fault w, Sql.select_habit id (db w), next_fault (served w) with
    | None, Some _, None =>
        Sql.insert_entry id
          (Index.or_else (Index.completed_at body) (toISOString P (clock w)))
          (db w)
    | _, _, _ => db w
    end.
Proof.
  unfold Index.completeHabit, try_catch. unfold bind at 1.
  unfold query, driver.
  destruct (next_fault w) as [msg|]; [reflexivity|].
  cbn [db]. destruct (Sql.select_habit id (db w)) as [h|] eqn:E;
    [|reflexivity].
  unfold bind, new_Date, exec, driver. fold (served w).
  destruct (next_fault (served w)); reflexivity.
Qed.

Ltac by_faults w :=
  destruct w as [d fs c con];
  destruct fs as [|[m1|] [|[m2|] fs]].

(** Each request leaves the database as it was or applies the
    statements of its handler, in their order, up to the first that
    fails. *)
Lemma router_effect (P : Platform) (r : Index.Request) (w : World) :
  db (snd (Index.router P r w)) = db w
  \/ (exists body,
        r = Index.POST_habit body
        /\ db (snd (Index.router P r w))
           = snd (Sql.insert_habit P (clock w) (dto_name body)
                    (dto_description body) (dto_frequency body)
                    (JSON.stringify (dto_target_days body))
                    (dto_priority body) (dto_category body) (db w)))
  \/ (exists id body,
        r = Index.PUT_habit id body
        /\ db (snd (Index.router P r w))
           = Sql.update_habit id (dto_name body) (dto_description body)
               (dto_frequency body) (JSON.stringify (dto_target_days body))
               (dto_priority body) (dto_category body) (db w))
  \/ (exists id,
        r = Index.DELETE_habit id
        /\ (db (snd (Index.router P r w)) = Sql.delete_entries_of id (db w)
            \/ db (snd (Index.router P r w))
               = Sql.delete_habit id (Sql.delete_entries_of id (db w))))
  \/ (exists id body ts,
        r = Index.POST_complete id body
        /\ Sql.select_habit id (db w) <> None
        /\ db (snd (Index.router P r w)) = Sql.insert_entry id ts (db w)).
Proof.
  destruct r as [|id|body|id body|id|id body]; cbn [Index.router].
  - left. apply getHabits_reads.
  - left. unfold Index.getHabitById, try_catch, bind, query, driver.
    destruct (next_fault w) as [msg|]; [reflexivity|].
    cbn [db]. destruct (Sql.select_habit id (db w)); reflexivity.
  - by_faults w;
      try (left; reflexivity);
      right; left; exists body; split; reflexivity.
  - by_faults w;
      try (left; reflexivity);
      right; right; left; exists id, body; split; reflexivity.
  - by_faults w;
      try (left; reflexivity);
      right; right; right; left; exists id; split; try reflexivity;
      try (left; reflexivity); right; reflexivity.
  - rewrite completeHabit_db.
    destruct (next_fault w); [left; reflexivity|].
    destruct (Sql.select_habit id (db w)) as [h|] eqn:E; [|left; reflexivity].
    destruct (next_fault (served w)); [left; reflexivity|].
    right; right; right; right. eexists id, body, _.
    split; [reflexivity|]. split; [rewrite E; discriminate|]. reflexivity.
Qed.

(** ** Primary keys and references *)


















(** X2. The repository's [addEntry] never looks the habit up: for an id
    that no habit has it resolves all the same and leaves an entry that
    belongs to no habit. *)
Theorem addEntry_can_orphan (habitId : Z) (completedAt : string) (w : World) :
  next_fault w = None ->
  (forall h, In h (habits (db w)) -> Habit.id h <> habitId) ->
  fst (HabitRepository.addEntry habitId completedAt w) = Resolved tt
  /\ ~ referential (db (snd (HabitRepository.addEntry habitId completedAt w))).
Proof.
  intros F Habsent. unfold HabitRepository.addEntry, try_catch.
  rewrite exec_ok by exact F. split; [reflexivity|].
  cbn [snd db]. intros R.
  destruct (R (HabitEntry.mk
                 (Z.max (seq_habit_entries (db w))
                    (Sql.max_entry_id (habit_entries (db w))) + 1)
                 habitId completedAt)) as (h & Hh & E).
  - cbn [Sql.insert_entry habit_entries]. apply in_app_iff. right. left.
    reflexivity.
  - cbn [Sql.insert_entry habits] in Hh. exact (Habsent h Hh E).
Qed.

Lemma addEntry_can_orphan_witness :
  next_fault Sample.world = None
  /\ (forall h, In h (habits (db Sample.world)) -> Habit.id h <> 9)
  /\ fst (HabitRepository.addEntry 9 "2024-03-10T21:00:00.000Z" Sample.world)
     = Resolved tt
  /\ ~ referential
         (db (snd (HabitRepository.addEntry 9 "2024-03-10T21:00:00.000Z"
                     Sample.world))).
Proof.
  assert (H : forall h, In h (habits (db Sample.world)) -> Habit.id h <> 9).
  { simpl. intros h [E|[E|[E|[]]]]; subst h; simpl; lia. }
  split; [reflexivity|]. split; [exact H|].
  exact (addEntry_can_orphan 9 "2024-03-10T21:00:00.000Z" Sample.world
           eq_refl H).
Defined.

(** ** AUTOINCREMENT *)

Lemma router_seq_monotone (P : Platform) (r : Index.Request) (w : World) :
  seq_habits (db w) <= seq_habits (db (snd (Index.router P r w))).
Proof.
  destruct (router_effect P r w)
    as [E|[(body & _ & E)|[(id & body & _ & E)|[(id & _ & [E|E])
        |(id & body & ts & _ & _ & E)]]]]; rewrite E;
    cbn [snd Sql.insert_habit Sql.update_habit Sql.delete_entries_of
         Sql.delete_habit Sql.insert_entry seq_habits]; lia.
Qed.

Lemma evolves_seq_monotone (P : Platform) (d d' : Database) :
  evolves P d d' -> seq_habits d <= seq_habits d'.
Proof.
  induction 1 as [|w r _ IH]; [lia|].
  pose proof (router_seq_monotone P r w). lia.
Qed.

(** POST /habits answers with an id exactly when the INSERT went
    through, and the id is then the new value of the counter, above the
    old one. *)
Lemma createHabit_id (P : Platform) (body : CreateHabitDTO) (w : World)
    (id : Z) :
  fst (Index.createHabit P body w) = Resolved (Index.json (Index.CreatedId id)) ->
  seq_habits (db w) < id
  /\ seq_habits (db (snd (Index.createHabit P body w))) = id.
Proof.
  destruct (next_fault w) as [msg|] eqn:F.
  - unfold Index.createHabit, try_catch. unfold bind at 1.
    rewrite (driver_fail _ w msg F). cbn. discriminate.
  - destruct (create_ok P body w F) as [_ E]. rewrite E.
    cbn [fst snd db Sql.insert_habit seq_habits].
    intros H. injection H as H. lia.
Qed.

(** X3. Habit ids are never reused: an id handed out by POST /habits is
    smaller than every id handed out later, whatever requests (deletions
    included) were handled in between. *)
Theorem habit_ids_never_reused (P : Platform) (w1 w2 : World)
    (body1 body2 : CreateHabitDTO) (id1 id2 : Z) :
  fst (Index.createHabit P body1 w1)
    = Resolved (Index.json (Index.CreatedId id1)) ->
  evolves P (db (snd (Index.createHabit P body1 w1))) (db w2) ->
  fst (Index.createHabit P body2 w2)
    = Resolved (Index.json (Index.CreatedId id2)) ->
  id1 < id2.
Proof.
  intros H1 Hev H2.
  destruct (createHabit_id P body1 w1 id1 H1) as [_ S1].
  destruct (createHabit_id P body2 w2 id2 H2) as [L2 _].
  pose proof (evolves_seq_monotone P _ _ Hev). lia.
Qed.

Lemma habit_ids_never_reused_witness :
  fst (Index.createHabit RefPlatform.utc Request.meditate Sample.world)
  = Resolved (Index.json (Index.CreatedId 4))
  /\ habits (db Session.later) = habits (db Sample.world)
  /\ fst (Index.createHabit RefPlatform.utc Request.meditate Session.later)
     = Resolved (Index.json (Index.CreatedId 5))
  /\ 4 < 5.
Proof.
  split; [reflexivity|]. split; [reflexivity|]. split; [reflexivity|].
  apply (habit_ids_never_reused RefPlatform.utc Sample.world Session.later
           Request.meditate Request.meditate 4 5 eq_refl).
  - apply (evolves_step RefPlatform.utc _
             (mkWorld (db Session.created) [] Sample.late [])
             (Index.DELETE_habit 4)).
    apply evolves_here.
  - reflexivity.
Defined.

(** ** Create, update, delete *)

(** X4. Creating a habit and then deleting it by the returned id puts the
    habits and the entries back as they were, provided no entry was
    orphaned before; only the AUTOINCREMENT counter remembers. *)
Theorem create_then_delete_restores (P : Platform) (body : CreateHabitDTO)
    (w w2 : World) (id : Z) :
  referential (db w) ->
  fst (Index.createHabit P body w) = Resolved (Index.json (Index.CreatedId id)) ->
  db w2 = db (snd (Index.createHabit P body w)) ->
  fst (Index.deleteHabit id w2) = Resolved (Index.json Index.Success) ->
  habits (db (snd (Index.deleteHabit id w2))) = habits (db w)
  /\ habit_entries (db (snd (Index.deleteHabit id w2))) = habit_entries (db w)
  /\ seq_habits (db (snd (Index.deleteHabit id w2))) = id.
Proof.
  intros R Hc Hdb Hd.
  assert (F : next_fault w = None).
  { destruct (next_fault w) as [msg|] eqn:F; [|reflexivity].
    unfold Index.createHabit, try_catch in Hc. unfold bind at 1 in Hc.
    rewrite (driver_fail _ w msg F) in Hc. cbn in Hc. discriminate. }
  destruct (create_ok P body w F) as [_ E]. rewrite E in Hc, Hdb.
  cbn [fst snd db] in Hc, Hdb. injection Hc as Hid.
  assert (D : db (snd (Index.deleteHabit id w2))
              = Sql.delete_habit id (Sql.delete_entries_of id (db w2))).
  { revert Hd. clear. by_faults w2; cbn; try discriminate; reflexivity. }
  rewrite D, Hdb.
  cbn [Sql.delete_habit Sql.delete_entries_of Sql.insert_habit snd habits
       habit_entries seq_habits].
  set (rowid := Z.max (seq_habits (db w)) (Sql.max_habit_id (habits (db w))) + 1)
    in *.
  split; [|split].
  - rewrite filter_app. cbn [filter Habit.id]. rewrite <- Hid, Z.eqb_refl.
    cbn [negb]. rewrite app_nil_r.
    apply forallb_filter_id. apply forallb_forall.
    intros h Hh. apply negb_true_iff, Z.eqb_neq.
    pose proof (max_habit_id_bound _ _ Hh). subst rowid. lia.
  - apply forallb_filter_id. apply forallb_forall.
    intros e He. apply negb_true_iff, Z.eqb_neq.
    destruct (R e He) as (h & Hh & Eh).
    pose proof (max_habit_id_bound _ _ Hh). subst rowid. lia.
  - exact Hid.
Qed.

Lemma create_then_delete_restores_witness :
  referential (db Sample.world)
  /\ habits (db Session.deleted) = habits (db Sample.world)
  /\ habit_entries (db Session.deleted) = habit_entries (db Sample.world)
  /\ seq_habits (db Session.deleted) = 4.
Proof.
  assert (R : referential (db Sample.world)).
  { intros e He. simpl in He.
    destruct He as [E|[E|[E|[]]]]; subst e; simpl;
      [exists Sample.read | exists Sample.run | exists Sample.read];
      simpl; tauto. }
  split; [exact R|].
  exact (create_then_delete_restores RefPlatform.utc Request.meditate
           Sample.world (mkWorld (db Session.created) [] Sample.late []) 4
           R eq_refl eq_refl eq_refl).
Defined.

Lemma find_map_same_id (id : Z) (f : Habit.t -> Habit.t) (l : list Habit.t) :
  (forall h, Habit.id (f h) = Habit.id h) ->
  find (fun h => Habit.id h =? id) (map f l)
  = option_map f (find (fun h => Habit.id h =? id) l).
Proof.
  intros Hf. induction l as [|h l IH]; simpl; [reflexivity|].
  rewrite Hf. destruct (Habit.id h =? id); [reflexivity | exact IH].
Qed.

Lemma update_run (id : Z) (body : CreateHabitDTO) (w : World) :
  next_fault w = None ->
  Index.updateHabit id body w
  = (Resolved (Index.json Index.Success),
     mkWorld (Sql.update_habit id (dto_name body) (dto_description body)
                (dto_frequency body) (JSON.stringify (dto_target_days body))
                (dto_priority body) (dto_category body) (db w))
       (tl (faults w)) (clock w) (console w))
  /\ HabitRepository.update id body w
     = (Resolved tt, snd (Index.updateHabit id body w)).
Proof.
  intros F. unfold Index.updateHabit, HabitRepository.update, try_catch, bind.
  rewrite exec_ok by exact F. split; reflexivity.
Qed.

Lemma select_after_update (id other : Z) (body : CreateHabitDTO) (d : Database) :
  Sql.select_habit other
    (Sql.update_habit id (dto_name body) (dto_description body)
       (dto_frequency body) (JSON.stringify (dto_target_days body))
       (dto_priority body) (dto_category body) d)
  = if other =? id then option_map (overwritten body) (Sql.select_habit id d)
    else Sql.select_habit other d.
Proof.
  unfold Sql.select_habit. cbn [Sql.update_habit habits].
  rewrite find_map_same_id
    by (intros h; destruct (Habit.id h =? id); reflexivity).
  destruct (Z.eqb_spec other id) as [->|N].
  - destruct (find (fun h => Habit.id h =? id) (habits d)) as [h|] eqn:F;
      [|reflexivity].
    apply find_some in F as [_ F]. cbn [option_map]. rewrite F. reflexivity.
  - destruct (find (fun h => Habit.id h =? other) (habits d)) as [h|] eqn:F;
      [|reflexivity].
    apply find_some in F as [_ F]. apply Z.eqb_eq in F. cbn [option_map].
    destruct (Z.eqb_spec (Habit.id h) id); [lia | reflexivity].
Qed.

(** X5. When its UPDATE goes through, PUT /habits/:id (and the
    repository's [update]) answers success; the habit with that id then
    reads back with the six supplied fields, [target_days] as JSON text,
    and with its old id and [created_at]; every other habit and every
    entry is as before. *)
Theorem updateHabit_overwrites_one_row (id : Z) (body : CreateHabitDTO)
    (w : World) :
  next_fault w = None ->
  fst (Index.updateHabit id body w) = Resolved (Index.json Index.Success)
  /\ Sql.select_habit id (db (snd (Index.updateHabit id body w)))
     = option_map (overwritten body) (Sql.select_habit id (db w))
  /\ (forall other, other <> id ->
        Sql.select_habit other (db (snd (Index.updateHabit id body w)))
        = Sql.select_habit other (db w))
  /\ habit_entries (db (snd (Index.updateHabit id body w)))
     = habit_entries (db w)
  /\ HabitRepository.update id body w
     = (Resolved tt, snd (Index.updateHabit id body w)).
Proof.
  intros F. destruct (update_run id body w F) as [E R].
  rewrite R, E. cbn [fst snd db].
  split; [reflexivity|]. split; [|split; [|split; reflexivity]].
  - rewrite select_after_update, Z.eqb_refl. reflexivity.
  - intros other N. rewrite select_after_update.
    destruct (Z.eqb_spec other id); [contradiction | reflexivity].
Qed.

Lemma updateHabit_overwrites_one_row_witness :
  next_fault Sample.world = None
  /\ Sql.select_habit 2
       (db (snd (Index.updateHabit 2 Request.meditate Sample.world)))
     = Some (Habit.mk 2 "Meditate" "Ten quiet minutes" "custom"
               (JSON.stringify ["monday"; "wednesday"]%string) 1 "mind"
               "2024-03-02 18:30:00")
  /\ Sql.select_habit 1
       (db (snd (Index.updateHabit 2 Request.meditate Sample.world)))
     = Some Sample.read.
Proof.
  split; [reflexivity|].
  destruct (updateHabit_overwrites_one_row 2 Request.meditate Sample.world
              eq_refl) as (_ & H2 & Hother & _).
  split; [exact H2|]. exact (Hother 1 ltac:(lia)).
Defined.

Lemma map_id_when_absent (id : Z) (f : Habit.t -> Habit.t) (l : list Habit.t) :
  (forall h, In h l -> Habit.id h <> id) ->
  map (fun h => if Habit.id h =? id then f h else h) l = l.
Proof.
  intros H. induction l as [|h l IH]; simpl; [reflexivity|].
  destruct (Z.eqb_spec (Habit.id h) id) as [E|N].
  - exfalso. exact (H h (or_introl eq_refl) E).
  - f_equal. apply IH. intros h' Hh'. apply H. right. exact Hh'.
Qed.

(** X6. PUT and DELETE do not check that the habit exists: for an id
    that no habit and no entry carries they answer success, not 404, and
    leave the database exactly as it was. *)
Theorem update_and_delete_of_absent_habit (id : Z) (body : CreateHabitDTO)
    (w : World) :
  healthy w ->
  (forall h, In h (habits (db w)) -> Habit.id h <> id) ->
  (forall e, In e (habit_entries (db w)) -> HabitEntry.habit_id e <> id) ->
  fst (Index.updateHabit id body w) = Resolved (Index.json Index.Success)
  /\ db (snd (Index.updateHabit id body w)) = db w
  /\ fst (Index.deleteHabit id w) = Resolved (Index.json Index.Success)
  /\ db (snd (Index.deleteHabit id w)) = db w.
Proof.
  intros H Hh He.
  pose proof (healthy_next w H) as F1.
  pose proof (healthy_next _ (healthy_served w H)) as F2.
  destruct (update_run id body w F1) as [E _]. rewrite E.
  assert (F2' : next_fault (mkWorld (Sql.delete_entries_of id (db w))
                              (tl (faults w)) (clock w) (console w)) = None)
    by exact F2.
  destruct (delete_ok id w F1 F2') as [D1 D2]. rewrite D2.
  cbn [fst snd db]. rewrite D1.
  split; [reflexivity|]. split; [|split; [reflexivity|]].
  - destruct (db w) as [hs es sh se]. unfold Sql.update_habit.
    cbn [habits habit_entries seq_habits seq_habit_entries] in *.
    f_equal. apply map_id_when_absent. exact Hh.
  - destruct (db w) as [hs es sh se].
    unfold Sql.delete_habit, Sql.delete_entries_of.
    cbn [habits habit_entries seq_habits seq_habit_entries] in *.
    f_equal; apply forallb_filter_id, forallb_forall.
    + intros h Hin. apply negb_true_iff, Z.eqb_neq. exact (Hh h Hin).
    + intros e Hin. apply negb_true_iff, Z.eqb_neq. exact (He e Hin).
Qed.

Lemma update_and_delete_of_absent_habit_witness :
  healthy Sample.world
  /\ fst (Index.updateHabit 7 Request.meditate Sample.world)
     = Resolved (Index.json Index.Success)
  /\ db (snd (Index.updateHabit 7 Request.meditate Sample.world))
     = db Sample.world
  /\ fst (Index.deleteHabit 7 Sample.world)
     = Resolved (Index.json Index.Success)
  /\ db (snd (Index.deleteHabit 7 Sample.world)) = db Sample.world.
Proof.
  assert (H : healthy Sample.world) by constructor.
  split; [exact H|].
  apply (update_and_delete_of_absent_habit 7 Request.meditate Sample.world H).
  - simpl. intros h [E|[E|[E|[]]]]; subst h; simpl; lia.
  - simpl. intros e [E|[E|[E|[]]]]; subst e; simpl; lia.
Defined.

(** ** Reading and answering *)

Lemma repo_calculateStreak_reads (P : Platform) (habitId : Z) (w : World) :
  db (snd (HabitRepository.calculateStreak P habitId w)) = db w.
Proof.
  unfold HabitRepository.calculateStreak, try_catch, bind, query, driver.
  destruct (next_fault w); reflexivity.
Qed.

(** X7. The reading operations never change a table, whatever fails on
    the way: GET /habits with its per-habit queries, GET /habits/:id,
    both [calculateStreak]s, [findAll], [findById] and [getEntries]. *)
Theorem reads_leave_the_database_alone (P : Platform) (id : Z)
    (daysAgo : option Z) (w : World) :
  db (snd (Index.getHabits P w)) = db w
  /\ db (snd (Index.getHabitById id w)) = db w
  /\ db (snd (Index.calculateStreak P id w)) = db w
  /\ db (snd (HabitRepository.calculateStreak P id w)) = db w
  /\ db (snd (HabitRepository.findAll w)) = db w
  /\ db (snd (HabitRepository.findById id w)) = db w
  /\ db (snd (HabitRepository.getEntries P id daysAgo w)) = db w.
Proof.
  split; [apply getHabits_reads|].
  split.
  { unfold Index.getHabitById, try_catch, bind, query, driver.
    destruct (next_fault w) as [msg|]; [reflexivity|].
    cbn [db]. destruct (Sql.select_habit id (db w)); reflexivity. }
  split; [apply calculateStreak_reads|].
  split; [apply repo_calculateStreak_reads|].
  unfold HabitRepository.findAll, HabitRepository.findById,
    HabitRepository.getEntries, try_catch, bind, query, driver.
  destruct (next_fault w); repeat split.
Qed.

Lemma getHabits_answer (P : Platform) (w : World) :
  exists resp,
    fst (Index.getHabits P w) = Resolved resp
    /\ (Index.status resp = 200 \/ Index.status resp = 500).
Proof.
  unfold Index.getHabits, try_catch.
  match goal with |- context [match ?b w with _ => _ end] =>
    destruct (b w) as [[resp|e] w'] eqn:E end.
  - exists resp. split; [reflexivity|]. left.
    unfold bind in E.
    destruct (query Sql.select_habits_ordered w) as [[hs|e] w1];
      [|discriminate].
    match type of E with context [Index.for_of ?l ?f w1] =>
      destruct (Index.for_of l f w1) as [[hs'|e] w2] end; [|discriminate].
    unfold ret in E. injection E as <- _. reflexivity.
  - eexists. split; [reflexivity|]. right. reflexivity.
Qed.

Lemma getHabits_healthy (P : Platform) (w : World) :
  healthy w ->
  exists hs, fst (Index.getHabits P w) = Resolved (Index.json (Index.HabitList hs)).
Proof.
  intros H. unfold Index.getHabits, try_catch. unfold bind at 1.
  rewrite query_ok by (apply healthy_next; exact H).
  destruct (getHabits_loop P (Sql.select_habits_ordered (db w)) (served w)
              (healthy_served w H)) as (hs & w' & E & _).
  unfold bind at 1. rewrite E. exists hs. reflexivity.
Qed.

Ltac healthy_cases H :=
  unfold healthy in H; cbn [faults] in H;
  repeat match goal with
         | H : Forall _ (_ :: _) |- _ => inversion H; clear H; subst
         end;
  try discriminate.

(** X8. Every handler answers: it resolves to a response with status
    200, 404 or 500 and never rejects.  On a connection where no driver
    call fails the status is never 500, and 404 is only ever the answer
    to GET /habits/:id or POST /habits/:id/complete for an id that no
    habit has. *)
Theorem router_always_answers (P : Platform) (r : Index.Request) (w : World) :
  exists resp,
    fst (Index.router P r w) = Resolved resp
    /\ (Index.status resp = 200 \/ Index.status resp = 404
        \/ Index.status resp = 500)
    /\ (healthy w -> Index.status resp <> 500)
    /\ (Index.status resp = 404 ->
        exists id,
          (r = Index.GET_habit id \/ exists body, r = Index.POST_complete id body)
          /\ Sql.select_habit id (db w) = None).
Proof.
  destruct r as [|id|body|id body|id|id body]; cbn [Index.router].
  - destruct (getHabits_answer P w) as (resp & E & S).
    exists resp. split; [exact E|]. split; [tauto|]. split.
    + intros H. destruct (getHabits_healthy P w H) as (hs & E').
      rewrite E' in E. injection E as <-. cbn. lia.
    + intros H404. lia.
  - unfold Index.getHabitById, try_catch, bind, query, driver.
    destruct (next_fault w) as [msg|] eqn:F.
    + eexists. split; [reflexivity|]. cbn. split; [tauto|]. split.
      * intros H. rewrite (healthy_next w H) in F. discriminate.
      * lia.
    + cbn [db]. destruct (Sql.select_habit id (db w)) as [h|] eqn:E.
      * eexists. split; [reflexivity|]. cbn. split; [tauto|]. split; lia.
      * eexists. split; [reflexivity|]. cbn. split; [tauto|]. split; [lia|].
        intros _. exists id. split; [left; reflexivity | exact E].
  - by_faults w; (eexists; split; [reflexivity|]); cbn;
      (split; [tauto|]); (split; [intros H; healthy_cases H; lia | lia]).
  - by_faults w; (eexists; split; [reflexivity|]); cbn;
      (split; [tauto|]); (split; [intros H; healthy_cases H; lia | lia]).
  - by_faults w; (eexists; split; [reflexivity|]); cbn;
      (split; [tauto|]); (split; [intros H; healthy_cases H; lia | lia]).
  - destruct (next_fault w) as [msg|] eqn:F1.
    + unfold Index.completeHabit, try_catch. unfold bind at 1.
      unfold query. rewrite (driver_fail _ w msg F1).
      eexists. split; [reflexivity|]. cbn. split; [tauto|]. split; [|lia].
      intros H. rewrite (healthy_next w H) in F1. discriminate.
    + destruct (next_fault (served w)) as [msg|] eqn:F2.
      * unfold Index.completeHabit, try_catch. unfold bind at 1.
        rewrite query_ok by exact F1.
        destruct (Sql.select_habit id (db w)) as [h|] eqn:E.
        -- unfold bind, new_Date, exec.
           rewrite (driver_fail _ (served w) msg F2).
           eexists. split; [reflexivity|]. cbn. split; [tauto|]. split; [|lia].
           intros H.
           rewrite (healthy_next _ (healthy_served w H)) in F2. discriminate.
        -- eexists. split; [reflexivity|]. cbn. split; [tauto|].
           split; [lia|]. intros _. exists id.
           split; [right; exists body; reflexivity | exact E].
      * rewrite (completeHabit_run P id body w F1 F2).
        destruct (Sql.select_habit id (db w)) as [h|] eqn:E;
          (eexists; split; [reflexivity|]); cbn; (split; [tauto|]).
        -- split; lia.
        -- split; [lia|]. intros _. exists id.
           split; [right; exists body; reflexivity | exact E].
Qed.

Lemma router_always_answers_witness :
  healthy Sample.world
  /\ exists resp,
       fst (Index.router RefPlatform.utc (Index.GET_habit 7) Sample.world)
       = Resolved resp
       /\ Index.status resp = 404
       /\ Sql.select_habit 7 (db Sample.world) = None.
Proof.
  assert (H : healthy Sample.world) by constructor.
  split; [exact H|].
  destruct (router_always_answers RefPlatform.utc (Index.GET_habit 7)
              Sample.world) as (resp & E & S & H5 & H4).
  exists resp. split; [exact E|].
  assert (S4 : Index.status resp = 404).
  { cbn in E. injection E as <-. reflexivity. }
  split; [exact S4|].
  destruct (H4 S4) as (id & [R|(body & R)] & N); [|discriminate R].
  injection R as <-. exact N.
Defined.

(** The loop of [getHabits] when the 30-day queries succeed and the
    streak queries do as [ss] says. *)
Lemma getHabits_loop_streak_faults (P : Platform) (l : list Habit.t)
    (ss : list (option string)) (rest : list (option string)) (w : World) :
  List.length ss = List.length l ->
  faults w = flat_map (fun s => [None; s]) ss ++ rest ->
  exists hs w',
    Index.for_of l (fun habit =>
      entries <- driver (fun now d =>
        (Sql.select_recent_entries P now (Habit.id habit) d, d)) ;;
      streak <- Index.calculateStreak P (Habit.id habit) ;;
      ret (Index.mkEnriched habit entries streak)) w
    = (Resolved hs, w')
    /\ map Index.row hs = l
    /\ Forall2 (fun s h => s <> None -> Index.currentStreak h = 0%nat) ss hs.
Proof.
  revert ss w. induction l as [|h l IH]; intros [|s ss] w Hlen Hf;
    try discriminate Hlen.
  - exists [], w. repeat split. constructor.
  - cbn [flat_map app] in Hf.
    cbn [Index.for_of]. unfold bind at 1. unfold bind at 1.
    unfold driver at 1.
    assert (F : next_fault w = None) by (unfold next_fault; rewrite Hf; reflexivity).
    rewrite F.
    set (w1 := mkWorld (db w) (tl (faults w)) (clock w) (console w)).
    unfold bind at 1.
    pose proof (calculateStreak_reads P (Habit.id h) w1) as (_ & Hf2 & _).
    pose proof (index_calculateStreak_run P (Habit.id h) w1) as Hrun.
    destruct (Index.calculateStreak P (Habit.id h) w1) as [o w2].
    cbn [fst snd] in *. subst o. unfold ret at 1.
    assert (Hw1 : faults w1 = s :: flat_map (fun s => [None; s]) ss ++ rest)
      by (subst w1; cbn [faults]; rewrite Hf; reflexivity).
    rewrite Hw1 in Hf2. cbn [tl] in Hf2.
    destruct (IH ss w2 ltac:(simpl in Hlen; lia) Hf2)
      as (hs & w' & E & Hmap & Hall).
    unfold bind at 1. rewrite E. unfold ret.
    eexists; eexists. split; [reflexivity|].
    cbn [map Index.row]. rewrite Hmap. split; [reflexivity|].
    constructor; [|exact Hall].
    cbn [Index.currentStreak]. intros Hs.
    unfold index_streak_value, next_fault. rewrite Hw1.
    destruct s; [reflexivity | now elim Hs].
Qed.

(** X9. A failing streak query does not fail GET /habits: when the
    listing query and every habit's 30-day entries query succeed, the
    answer is 200 with every habit in order, whatever the streak queries
    do, and a habit whose streak query failed is listed with
    [currentStreak] 0. *)
Theorem getHabits_survives_streak_failures (P : Platform) (w : World)
    (ss rest : list (option string)) :
  List.length ss = List.length (habits (db w)) ->
  faults w = None :: flat_map (fun s => [None; s]) ss ++ rest ->
  exists hs,
    fst (Index.getHabits P w) = Resolved (Index.json (Index.HabitList hs))
    /\ map Index.row hs = Sql.select_habits_ordered (db w)
    /\ Forall2 (fun s h => s <> None -> Index.currentStreak h = 0%nat) ss hs.
Proof.
  intros Hlen Hf.
  assert (F : next_fault w = None) by (unfold next_fault; rewrite Hf; reflexivity).
  unfold Index.getHabits, try_catch. unfold bind at 1.
  rewrite query_ok by exact F.
  destruct (getHabits_loop_streak_faults P (Sql.select_habits_ordered (db w))
              ss rest (served w)) as (hs & w' & E & Hmap & Hall).
  - rewrite Hlen. apply Permutation_length, select_habits_ordered_perm.
  - unfold served. cbn [faults]. rewrite Hf. reflexivity.
  - unfold bind at 1. rewrite E. exists hs. repeat split; assumption.
Qed.

Lemma getHabits_survives_streak_failures_witness :
  exists hs,
    fst (Index.getHabits RefPlatform.utc Outage.streak_query_lost)
    = Resolved (Index.json (Index.HabitList hs))
    /\ map Index.row hs = [Sample.run; Sample.stretch; Sample.read]
    /\ map Index.currentStreak hs = [0; 0; 2]%nat
    /\ fst (Index.calculateStreak RefPlatform.utc 2 Sample.world)
       = Resolved 1%nat.
Proof.
  destruct (getHabits_survives_streak_failures RefPlatform.utc
              Outage.streak_query_lost
              [Some "SQLITE_BUSY: database is locked"%string; None; None] []
              eq_refl eq_refl) as (hs & E & Hmap & _).
  exists hs. split; [exact E|]. split; [exact Hmap|].
  vm_compute in E. injection E as <-. split; reflexivity.
Defined.

(** ** More on the streak *)

Lemma scan_le (cursor : Z) (streak : nat) (dates : list Z) :
  (Spec.scan cursor streak dates <= streak + List.length dates)%nat.
Proof.
  revert cursor streak.
  induction dates as [|d rest IH]; intros cursor streak; simpl; [lia|].
  destruct (cursor - d <=? 1); [|lia].
  specialize (IH d (S streak)). lia.
Qed.

Lemma streak_le (today : Z) (dates : list Z) :
  (Spec.streak today dates <= List.length dates)%nat.
Proof.
  destruct dates as [|d rest]; [simpl; lia|].
  unfold Spec.streak. apply (scan_le today 0).
Qed.

Lemma select_entry_dates_length (P : Platform) (habitId : Z) (d : Database) :
  List.length (Sql.select_entry_dates P habitId d) = entry_count habitId d.
Proof.
  unfold Sql.select_entry_dates, entry_count. rewrite length_map.
  symmetry. apply Permutation_length, order_by_perm.
Qed.

Lemma index_streak_value_le (P : Platform) (habitId : Z) (w : World) :
  (index_streak_value P habitId w <= entry_count habitId (db w))%nat.
Proof.
  destruct (next_fault w) as [msg|] eqn:F.
  - unfold index_streak_value. rewrite F. lia.
  - rewrite index_streak_value_spec by exact F.
    rewrite <- (select_entry_dates_length P).
    etransitivity; [apply streak_le|]. rewrite length_map. lia.
Qed.

Lemma repo_streak_value_le (P : Platform) (habitId : Z) (w : World) :
  (repo_streak_value P habitId w <= entry_count habitId (db w))%nat.
Proof.
  destruct (next_fault w) as [msg|] eqn:F.
  - unfold repo_streak_value. rewrite F. lia.
  - rewrite repo_streak_value_spec by exact F.
    rewrite <- (select_entry_dates_length P).
    etransitivity; [apply streak_le|]. rewrite length_map. lia.
Qed.

(** X10. Neither [calculateStreak] ever reports more than the number of
    completion-entries the habit has. *)
Theorem streak_at_most_entry_count (P : Platform) (habitId : Z) (w : World) :
  exists n m : nat,
    fst (Index.calculateStreak P habitId w) = Resolved n
    /\ fst (HabitRepository.calculateStreak P habitId w) = Resolved m
    /\ (n <= entry_count habitId (db w))%nat
    /\ (m <= entry_count habitId (db w))%nat.
Proof.
  exists (index_streak_value P habitId w), (repo_streak_value P habitId w).
  split; [apply index_calculateStreak_run|].
  split; [apply repo_calculateStreak_run|].
  split; [apply index_streak_value_le | apply repo_streak_value_le].
Qed.

Lemma streak_cons (today d : Z) (rest : list Z) :
  Spec.streak today (d :: rest)
  = if today - d <=? 1 then S (Spec.scan d 0%nat rest) else 0%nat.
Proof.
  unfold Spec.streak. cbn [Spec.scan].
  destruct (today - d <=? 1); [apply scan_S | reflexivity].
Qed.








(** ** [target_days] as text *)

Lemma string_app_assoc (a b c : string) :
  ((a ++ b) ++ c = a ++ (b ++ c))%string.
Proof.
  induction a as [|x a IH]; simpl; [reflexivity|]. rewrite IH. reflexivity.
Qed.

Lemma read_body_quoteBody (s rest : string) :
  JSONRead.body (JSON.quoteBody s ++ String JSON.dquote rest)%string
  = Some (s, rest).
Proof.
  induction s as [|c s IH]; [reflexivity|].
  cbn [JSON.quoteBody]. rewrite string_app_assoc.
  destruct c as [[] [] [] [] [] [] [] []];
    cbn; rewrite IH; reflexivity.
Qed.

Lemma joined_quotes_unfold (x : string) (l : list string) (tail : string) :
  (JSON.joinComma (map JSON.quote (x :: l)) ++ tail)%string
  = String JSON.dquote
      (JSON.quoteBody x
       ++ String JSON.dquote
            match l with
            | [] => tail
            | y :: r =>
                String "," (JSON.joinComma (map JSON.quote (y :: r)) ++ tail)
            end)%string.
Proof.
  destruct l as [|y r]; cbn [map JSON.joinComma]; unfold JSON.quote at 1;
    cbn [append]; f_equal; rewrite !string_app_assoc; reflexivity.
Qed.

Lemma read_elements (l : list string) (x : string) (fuel : nat) :
  (List.length l < fuel)%nat ->
  JSONRead.elements fuel
    (JSON.joinComma (map JSON.quote (x :: l)) ++ JSON.str1 "]")%string
  = Some (x :: l).
Proof.
  revert x fuel. induction l as [|y r IH]; intros x fuel Hfuel;
    (destruct fuel as [|fuel]; [simpl in Hfuel; lia|]);
    rewrite joined_quotes_unfold; cbn [JSONRead.elements];
    change (N_of_ascii JSON.dquote =? 34)%N with true; cbv iota;
    rewrite read_body_quoteBody.
  - reflexivity.
  - change (N_of_ascii "," =? 93)%N with false.
    change (N_of_ascii "," =? 44)%N with true. cbv iota.
    rewrite IH by (simpl in Hfuel; lia). reflexivity.
Qed.

Lemma string_length_app (a b : string) :
  String.length (a ++ b) = (String.length a + String.length b)%nat.
Proof.
  induction a as [|c a IH]; simpl; [reflexivity|]. rewrite IH. reflexivity.
Qed.

Lemma joined_quotes_length (x : string) (l : list string) (tail : string) :
  (List.length l
   < String.length (JSON.joinComma (map JSON.quote (x :: l)) ++ tail))%nat.
Proof.
  revert x. induction l as [|y r IH]; intros x; rewrite joined_quotes_unfold;
    cbn [String.length List.length]; [lia|].
  rewrite string_length_app. cbn [String.length].
  specialize (IH y). lia.
Qed.

Lemma parse_stringify (a : list string) :
  JSONRead.parse (JSON.stringify a) = Some a.
Proof.
  destruct a as [|x l]; [reflexivity|].
  unfold JSON.stringify, JSONRead.parse.
  change (N_of_ascii "[" =? 91)%N with true. cbv iota.
  pose proof (joined_quotes_length x l (JSON.str1 "]")) as Hlen.
  pose proof (read_elements l x _ Hlen) as Hread.
  rewrite joined_quotes_unfold in *.
  change (N_of_ascii JSON.dquote =? 93)%N with false. cbv iota.
  exact Hread.
Qed.

(** X14. The text that [create], [update] and the POST and PUT handlers
    store for [target_days] still holds the whole array: two habits are
    stored with the same [target_days] text only if they were given the
    same list of names, in the same order. *)
Theorem stored_target_days_determine_the_array (b1 b2 : CreateHabitDTO)
    (h1 h2 : Habit.t) :
  Habit.target_days (overwritten b1 h1) = Habit.target_days (overwritten b2 h2)
  -> dto_target_days b1 = dto_target_days b2.
Proof.
  cbn [overwritten Habit.target_days]. intros E.
  apply (f_equal JSONRead.parse) in E. rewrite !parse_stringify in E.
  injection E as E. exact E.
Qed.

Lemma stored_target_days_determine_the_array_witness :
  Habit.target_days (overwritten Request.meditate Sample.read)
  = Habit.target_days
      (overwritten (mkDTO "Swim" "Forty lengths" "custom"
                      ["monday"; "wednesday"]%string 3 "body") Sample.run)
  /\ dto_target_days Request.meditate = ["monday"; "wednesday"]%string.
Proof.
  split; [reflexivity|].
  exact (stored_target_days_determine_the_array Request.meditate
           (mkDTO "Swim" "Forty lengths" "custom"
              ["monday"; "wednesday"]%string 3 "body")
           Sample.read Sample.run eq_refl).
Defined.

(** ** Errors of the repository *)

(** [create], [update], [getEntries], [addEntry] and [delete] resolve
    when their first driver call succeeds ([delete] then goes on to its
    second statement); when it fails they reject with their own message,
    the same whatever the driver reported, and the driver's message goes
    to the console only. *)
Lemma repository_failures_are_wrapped (P : Platform) (id : Z)
    (habit : CreateHabitDTO) (daysAgo : option Z) (ts : string) (w : World) :
  match next_fault w with
  | None =>
      (exists newid, fst (HabitRepository.create P habit w) = Resolved newid)
      /\ fst (HabitRepository.update id habit w) = Resolved tt
      /\ (exists es, fst (HabitRepository.getEntries P id daysAgo w)
                     = Resolved es)
      /\ fst (HabitRepository.addEntry id ts w) = Resolved tt
  | Some msg =>
      HabitRepository.create P habit w
      = (Rejected (mkError "Failed to create habit"),
         mkWorld (db w) (tl (faults w)) (clock w)
           (console w ++ ["Error in create: " ++ msg]%string))
      /\ HabitRepository.update id habit w
         = (Rejected (mkError ("Failed to update habit with id "
                               ++ string_of_Z id)),
            mkWorld (db w) (tl (faults w)) (clock w)
              (console w ++ ["Error in update: " ++ msg]%string))
      /\ HabitRepository.getEntries P id daysAgo w
         = (Rejected (mkError ("Failed to fetch entries for habit "
                               ++ string_of_Z id)),
            mkWorld (db w) (tl (faults w)) (clock w)
              (console w ++ ["Error in getEntries: " ++ msg]%string))
      /\ HabitRepository.addEntry id ts w
         = (Rejected (mkError ("Failed to add entry for habit "
                               ++ string_of_Z id)),
            mkWorld (db w) (tl (faults w)) (clock w)
              (console w ++ ["Error in addEntry: " ++ msg]%string))
      /\ HabitRepository.delete id w
         = (Rejected (mkError ("Failed to delete habit with id "
                               ++ string_of_Z id)),
            mkWorld (db w) (tl (faults w)) (clock w)
              (console w ++ ["Error in delete: " ++ msg]%string))
  end.
Proof.
  unfold HabitRepository.create, HabitRepository.update,
    HabitRepository.getEntries, HabitRepository.addEntry,
    HabitRepository.delete, try_catch, bind, exec, driver.
  destruct (next_fault w) as [msg|].
  - repeat split.
  - repeat split; eexists; reflexivity.
Qed.

(** ** Failed requests *)

(** X15. A request that is answered 500 has changed nothing, with one
    exception: DELETE /habits/:id whose second statement failed has
    already removed the habit's entries and kept the habit. *)
Theorem failed_requests_change_nothing_but_delete (P : Platform)
    (r : Index.Request) (w : World) (resp : Index.Response) :
  fst (Index.router P r w) = Resolved resp ->
  Index.status resp = 500 ->
  db (snd (Index.router P r w)) = db w
  \/ (exists id,
        r = Index.DELETE_habit id
        /\ db (snd (Index.router P r w)) = Sql.delete_entries_of id (db w)).
Proof.
  destruct r as [|id|body|id body|id|id body]; cbn [Index.router].
  - intros _ _. left. apply getHabits_reads.
  - intros _ _. left.
    unfold Index.getHabitById, try_catch, bind, query, driver.
    destruct (next_fault w) as [msg|]; [reflexivity|].
    cbn [db]. destruct (Sql.select_habit id (db w)); reflexivity.
  - by_faults w; cbn; intros E S; try (left; reflexivity);
      injection E as <-; discriminate S.
  - by_faults w; cbn; intros E S; try (left; reflexivity);
      injection E as <-; discriminate S.
  - by_faults w; cbn; intros E S; try (left; reflexivity);
      try (right; exists id; split; reflexivity);
      injection E as <-; discriminate S.
  - intros E S. left. rewrite completeHabit_db.
    destruct (next_fault w) as [msg|] eqn:F1; [reflexivity|].
    destruct (Sql.select_habit id (db w)) as [h|] eqn:Eh; [|reflexivity].
    destruct (next_fault (served w)) as [msg|] eqn:F2; [reflexivity|].
    rewrite (completeHabit_run P id body w F1 F2), Eh in E.
    injection E as <-. discriminate S.
Qed.

Lemma failed_requests_change_nothing_but_delete_witness :
  exists resp,
    fst (Index.router RefPlatform.utc (Index.DELETE_habit 1)
           (mkWorld Sample.store [None; Some "SQLITE_IOERR: disk I/O error"%string]
              Sample.evening []))
    = Resolved resp
    /\ Index.status resp = 500
    /\ db (snd (Index.router RefPlatform.utc (Index.DELETE_habit 1)
                  (mkWorld Sample.store
                     [None; Some "SQLITE_IOERR: disk I/O error"%string]
                     Sample.evening [])))
       = mkDatabase [Sample.read; Sample.run; Sample.stretch]
           [Sample.run_on_9th] 3 3.
Proof.
  eexists. split; [reflexivity|]. split; [reflexivity|].
  destruct (failed_requests_change_nothing_but_delete RefPlatform.utc
              (Index.DELETE_habit 1)
              (mkWorld Sample.store
                 [None; Some "SQLITE_IOERR: disk I/O error"%string]
                 Sample.evening [])
              _ eq_refl eq_refl) as [E|(id & R & E)].
  - vm_compute in E. discriminate E.
  - injection R as <-. exact E.
Defined.

(** ** What GET /habits attaches to a habit *)

Lemma getHabits_loop_values (P : Platform) (l : list Habit.t) (w0 w : World) :
  healthy w -> db w = db w0 -> clock w = clock w0 -> next_fault w0 = None ->
  exists hs w',
    Index.for_of l (fun habit =>
      entries <- driver (fun now d =>
        (Sql.select_recent_entries P now (Habit.id habit) d, d)) ;;
      streak <- Index.calculateStreak P (Habit.id habit) ;;
      ret (Index.mkEnriched habit entries streak)) w
    = (Resolved hs, w')
    /\ map Index.row hs = l
    /\ Forall (fun h =>
         Index.entries h
         = Sql.select_recent_entries P (clock w0) (Habit.id (Index.row h)) (db w0)
         /\ Index.currentStreak h
            = index_streak_value P (Habit.id (Index.row h)) w0) hs.
Proof.
  intros Hw Hdb Hclock F0. revert w Hw Hdb Hclock.
  induction l as [|h l IH]; intros w Hw Hdb Hclock.
  - exists [], w. repeat split. constructor.
  - cbn [Index.for_of]. unfold bind at 1. unfold bind at 1.
    unfold driver at 1. rewrite (healthy_next w Hw).
    change (mkWorld (db w) (tl (faults w)) (clock w) (console w)) with (served w).
    pose proof (healthy_served w Hw) as Hw1.
    unfold bind at 1.
    rewrite index_calculateStreak_ok by (apply healthy_next; exact Hw1).
    unfold ret at 1.
    pose proof (healthy_served _ Hw1) as Hw2.
    destruct (IH _ Hw2) as (hs & w' & E & Hmap & Hall);
      [exact Hdb | exact Hclock |].
    unfold bind at 1. rewrite E. unfold ret.
    eexists; eexists. split; [reflexivity|].
    cbn [map Index.row]. rewrite Hmap. split; [reflexivity|].
    constructor; [|exact Hall].
    cbn [Index.entries Index.currentStreak Index.row].
    rewrite Hdb, Hclock. split; [reflexivity|].
    unfold index_streak_value.
    rewrite (healthy_next _ Hw1), F0. cbn [served db clock].
    rewrite Hdb, Hclock. reflexivity.
Qed.

(** X16. On a connection where no driver call fails, GET /habits lists
    each habit with the [currentStreak] that [calculateStreak] gives for
    it and with, as [entries], the [completed_at] values of the entries
    that [getEntries] returns for it with its default window of 30
    days. *)
Theorem getHabits_attaches_streak_and_window (P : Platform) (w : World) :
  healthy w ->
  exists hs,
    fst (Index.getHabits P w) = Resolved (Index.json (Index.HabitList hs))
    /\ map Index.row hs = Sql.select_habits_ordered (db w)
    /\ Forall (fun h =>
         fst (Index.calculateStreak P (Habit.id (Index.row h)) w)
         = Resolved (Index.currentStreak h)
         /\ exists es,
              fst (HabitRepository.getEntries P (Habit.id (Index.row h)) None w)
              = Resolved es
              /\ Index.entries h = map HabitEntry.completed_at es) hs.
Proof.
  intros H. pose proof (healthy_next w H) as F.
  unfold Index.getHabits, try_catch. unfold bind at 1.
  rewrite query_ok by exact F.
  destruct (getHabits_loop_values P (Sql.select_habits_ordered (db w)) w
              (served w) (healthy_served w H) eq_refl eq_refl F)
    as (hs & w' & E & Hmap & Hall).
  unfold bind at 1. rewrite E. exists hs.
  split; [reflexivity|]. split; [exact Hmap|].
  eapply Forall_impl; [|exact Hall].
  intros h [He Hs]. split.
  - rewrite index_calculateStreak_run, Hs. reflexivity.
  - unfold HabitRepository.getEntries, try_catch, driver. rewrite F.
    eexists. split; [reflexivity|]. exact He.
Qed.

Lemma getHabits_attaches_streak_and_window_witness :
  healthy Sample.world
  /\ exists hs,
       fst (Index.getHabits RefPlatform.utc Sample.world)
       = Resolved (Index.json (Index.HabitList hs))
       /\ map Index.row hs = [Sample.run; Sample.stretch; Sample.read]
       /\ map Index.currentStreak hs = [1; 0; 2]%nat.
Proof.
  assert (H : healthy Sample.world) by constructor.
  split; [exact H|].
  destruct (getHabits_attaches_streak_and_window RefPlatform.utc Sample.world H)
    as (hs & E & Hmap & _).
  exists hs. split; [exact E|]. split; [exact Hmap|].
  vm_compute in E. injection E as <-. reflexivity.
Defined.

(** * The frontend *)

(** ** The category menu *)

Lemma existsb_eqb_In (x : string) (l : list string) :
  existsb (String.eqb x) l = true <-> In x l.
Proof.
  rewrite existsb_exists. split.
  - intros (y & Hy & E). apply String.eqb_eq in E. subst y. exact Hy.
  - intros H. exists x. split; [exact H | apply String.eqb_refl].
Qed.

Lemma set_spread_In (seen xs : list string) (c : string) :
  In c (Page.set_spread seen xs) <-> In c xs /\ ~ In c seen.
Proof.
  revert seen. induction xs as [|x xs IH]; intros seen; cbn [Page.set_spread].
  - simpl. tauto.
  - destruct (existsb (String.eqb x) seen) eqn:E.
    + apply existsb_eqb_In in E. rewrite IH. simpl.
      split; [tauto|]. intros [[->|H] N]; [contradiction | tauto].
    + assert (N : ~ In x seen).
      { intros H. apply existsb_eqb_In in H. congruence. }
      simpl. rewrite IH. simpl.
      destruct (String.eqb_spec x c) as [->|D]; [tauto|].
      split; [intros [H|H]; tauto | intros [[H|H] Hs]; tauto].
Qed.

Lemma set_spread_NoDup (seen xs : list string) :
  NoDup (Page.set_spread seen xs).
Proof.
  revert seen. induction xs as [|x xs IH]; intros seen; cbn [Page.set_spread].
  - constructor.
  - destruct (existsb (String.eqb x) seen); [apply IH|].
    constructor; [|apply IH].
    rewrite set_spread_In. simpl. tauto.
Qed.

Lemma category_listed (habits : list Index.EnrichedHabit) (c : string) :
  In c (tl (Page.categories habits))
  <-> c <> EmptyString /\ exists h, In h habits /\ Page.category h = c.
Proof.
  cbn [Page.categories tl]. rewrite set_spread_In, filter_In, in_map_iff.
  unfold Page.Boolean. rewrite negb_true_iff, String.eqb_neq.
  simpl. split.
  - intros [[(h & E & H) N] _]. split; [exact N|]. exists h. tauto.
  - intros [N (h & H & E)]. split; [|tauto]. split; [|exact N].
    exists h. tauto.
Qed.

(** X17. After its leading entry all, the category menu lists each
    non-empty category of the habits exactly once and nothing else.
    The whole menu is free of repeats exactly when no habit's category
    is the word all itself. *)
Theorem category_menu (habits : list Index.EnrichedHabit) :
  hd EmptyString (Page.categories habits) = "all"%string
  /\ NoDup (tl (Page.categories habits))
  /\ (forall c, In c (tl (Page.categories habits))
                <-> c <> EmptyString
                    /\ exists h, In h habits /\ Page.category h = c)
  /\ (NoDup (Page.categories habits)
      <-> forall h, In h habits -> Page.category h <> "all"%string).
Proof.
  split; [reflexivity|].
  split; [apply set_spread_NoDup|].
  split; [apply category_listed|].
  split.
  - intros H h Hh E. inversion H as [|? ? Hnot _]; subst.
    apply Hnot. apply (category_listed habits "all"%string).
    split; [discriminate|]. exists h. tauto.
  - intros H. constructor; [|apply set_spread_NoDup].
    intros Hin. apply (category_listed habits "all"%string) in Hin
      as [_ (h & Hh & E)].
    exact (H h Hh E).
Qed.

(** X18. Every entry of the category menu other than all shows at least
    one habit when selected, and shows exactly the habits of that
    category, in their order; selecting all shows every habit, so habits
    whose category is the word all cannot be shown on their own. *)
Theorem every_menu_entry_shows_its_habits
    (habits : list Index.EnrichedHabit) (c : string) :
  In c (Page.categories habits) ->
  (c = "all"%string -> Page.filteredHabits habits c = habits)
  /\ (c <> "all"%string ->
      Page.filteredHabits habits c <> []
      /\ Page.filteredHabits habits c
         = filter (fun h => String.eqb (Page.category h) c) habits
      /\ forall h, In h (Page.filteredHabits habits c)
                   <-> In h habits /\ Page.category h = c).
Proof.
  intros Hin. unfold Page.filteredHabits. split.
  - intros ->. reflexivity.
  - intros N. destruct (String.eqb_spec c "all") as [E|_]; [contradiction|].
    destruct Hin as [E|Hin]; [congruence|].
    apply (category_listed habits c) in Hin as [_ (h & Hh & E)].
    split; [|split; [reflexivity|]].
    + intros Hnil.
      assert (Hf : In h (filter (fun h => String.eqb (Page.category h) c) habits)).
      { apply filter_In. split; [exact Hh|]. apply String.eqb_eq. exact E. }
      rewrite Hnil in Hf. exact Hf.
    + intros h'. rewrite filter_In, String.eqb_eq. reflexivity.
Qed.

Lemma category_menu_witness :
  Page.categories Screen.listed = ["all"; "body"; "mind"]%string
  /\ NoDup (Page.categories Screen.listed).
Proof.
  split; [reflexivity|].
  destruct (category_menu Screen.listed) as (_ & _ & _ & H).
  apply H. simpl. intros h [E|[E|[E|[]]]]; subst h; discriminate.
Defined.

Lemma every_menu_entry_shows_its_habits_witness :
  In "body"%string (Page.categories Screen.listed)
  /\ map Index.row (Page.filteredHabits Screen.listed "body")
     = [Sample.run; Sample.stretch]
  /\ Page.filteredHabits Screen.listed "body" <> [].
Proof.
  assert (H : In "body"%string (Page.categories Screen.listed))
    by (right; left; reflexivity).
  split; [exact H|]. split; [reflexivity|].
  destruct (every_menu_entry_shows_its_habits Screen.listed "body" H)
    as [_ Hc].
  exact (proj1 (Hc ltac:(discriminate))).
Defined.

(** ** The day checkboxes of the form *)

Lemma includes_In (days : list string) (day : string) :
  HabitForm.includes days day = true <-> In day days.
Proof. apply existsb_eqb_In. Qed.

Lemma includes_false (days : list string) (day : string) :
  HabitForm.includes days day = false <-> ~ In day days.
Proof.
  rewrite <- includes_In.
  destruct (HabitForm.includes days day); split; congruence.
Qed.

(** X19. A click on a day's checkbox leaves the list saying about that
    day what the box now shows, and saying about every other day what it
    said before.  Checking a day that was not selected and unchecking it
    again gives the list back unchanged, and a list without repeats
    stays so. *)
Theorem day_checkbox_click (days : list string) (day other : string)
    (checked : bool) :
  HabitForm.includes (HabitForm.onChange checked days day) day = checked
  /\ (other <> day ->
      HabitForm.includes (HabitForm.onChange checked days day) other
      = HabitForm.includes days other)
  /\ (HabitForm.includes days day = false ->
      HabitForm.onChange false (HabitForm.onChange true days day) day = days)
  /\ (NoDup days -> HabitForm.includes days day = negb checked ->
      NoDup (HabitForm.onChange checked days day)).
Proof.
  split; [|split; [|split]].
  - destruct checked; unfold HabitForm.onChange.
    + apply includes_In, in_app_iff. right. left. reflexivity.
    + apply includes_false. rewrite filter_In, negb_true_iff, String.eqb_neq.
      tauto.
  - intros N. unfold HabitForm.onChange.
    destruct (HabitForm.includes days other) eqn:E.
    + apply includes_In in E. apply includes_In.
      destruct checked.
      * apply in_app_iff. left. exact E.
      * apply filter_In. split; [exact E|].
        apply negb_true_iff, String.eqb_neq. exact N.
    + apply includes_false in E. apply includes_false.
      destruct checked.
      * rewrite in_app_iff. simpl. intros [H|[H|[]]]; [tauto | congruence].
      * rewrite filter_In. tauto.
  - intros Hn. apply includes_false in Hn.
    unfold HabitForm.onChange. rewrite filter_app. cbn [filter].
    rewrite String.eqb_refl. cbn [negb]. rewrite app_nil_r.
    apply forallb_filter_id, forallb_forall.
    intros d Hd. apply negb_true_iff, String.eqb_neq. congruence.
  - intros Hd Hi. unfold HabitForm.onChange. destruct checked.
    + cbn [negb] in Hi. apply includes_false in Hi.
      apply NoDup_app_remove_l with (l := []). simpl.
      apply Permutation_NoDup with (l := day :: days).
      * apply Permutation_cons_append.
      * constructor; assumption.
    + apply NoDup_filter. exact Hd.
Qed.

Lemma day_checkbox_click_witness :
  HabitForm.onChange true ["monday"; "wednesday"]%string "friday"
  = ["monday"; "wednesday"; "friday"]%string
  /\ HabitForm.onChange false
       (HabitForm.onChange true ["monday"; "wednesday"]%string "friday")
       "friday"
     = ["monday"; "wednesday"]%string.
Proof.
  split; [reflexivity|].
  destruct (day_checkbox_click ["monday"; "wednesday"]%string "friday"
              "monday" true) as (_ & _ & H & _).
  exact (H eq_refl).
Defined.

(** ** The service's cache *)

Section ServiceFacts.
Context {Net : Type}.
Context (fetch : string -> HabitService.RequestInit -> Z -> Net
                 -> HabitService.FetchResult * Z * Net).
Context (base : string).

Lemma map_get_set_same (key : string) (v : HabitService.CacheEntry)
    (m : HabitService.CacheMap) :
  HabitService.map_get key (HabitService.map_set key v m) = Some v.
Proof.
  induction m as [|[k v'] m IH]; simpl.
  - rewrite String.eqb_refl. reflexivity.
  - destruct (String.eqb k key) eqn:E; simpl; rewrite E; [reflexivity | exact IH].
Qed.

Lemma map_get_set_other (key key' : string) (v : HabitService.CacheEntry)
    (m : HabitService.CacheMap) :
  key' <> key ->
  HabitService.map_get key' (HabitService.map_set key v m)
  = HabitService.map_get key' m.
Proof.
  intros N. induction m as [|[k v'] m IH]; simpl.
  - destruct (String.eqb_spec key key'); [congruence | reflexivity].
  - destruct (String.eqb_spec k key) as [->|D]; simpl.
    + destruct (String.eqb_spec key key'); [congruence | reflexivity].
    + rewrite IH. reflexivity.
Qed.

Lemma map_get_delete_other (key key' : string) (m : HabitService.CacheMap) :
  key' <> key ->
  HabitService.map_get key' (HabitService.map_delete key m)
  = HabitService.map_get key' m.
Proof.
  intros N. induction m as [|[k v'] m IH]; simpl; [reflexivity|].
  destruct (String.eqb_spec k key) as [->|D]; simpl.
  - destruct (String.eqb_spec key key'); [congruence | reflexivity].
  - rewrite IH. reflexivity.
Qed.

(** What [fetchWithErrorHandling] never touches. *)
Lemma fetchWithErrorHandling_cache (url : string)
    (options : HabitService.RequestInit) (c : HabitService.Client) :
  HabitService.cache (snd (HabitService.fetchWithErrorHandling fetch base url options c))
  = HabitService.cache c.
Proof.
  unfold HabitService.fetchWithErrorHandling.
  destruct (fetch _ options (HabitService.now c) (HabitService.net c))
    as [[[e|[j|e]|[[[|a s]|]|e]] t] n]; reflexivity.
Qed.

(** A fresh, truthy entry is returned as it is, and nothing else
    happens. *)
Lemma read_through_hit (key url : string) (e : HabitService.CacheEntry)
    (c : HabitService.Client) :
  HabitService.map_get key (HabitService.cache c) = Some e ->
  HabitService.now c - HabitService.timestamp e <= HabitService.CACHE_TIME ->
  HabitService.truthy (HabitService.data e) = true ->
  (let (cachedData, c1) := HabitService.getFromCache key c in
   if HabitService.truthy cachedData then (Resolved cachedData, c1)
   else HabitService.fetch_and_cache fetch base key url c1)
  = (Resolved (HabitService.data e), c).
Proof.
  intros Hget Hfresh Htruthy. unfold HabitService.getFromCache.
  rewrite Hget.
  destruct (Z.ltb_spec HabitService.CACHE_TIME
              (HabitService.now c - HabitService.timestamp e)); [lia|].
  rewrite Htruthy. reflexivity.
Qed.

Lemma fetch_and_cache_resolved (key url : string) (c c1 : HabitService.Client)
    (d : HabitService.Json) :
  HabitService.fetch_and_cache fetch base key url c = (Resolved d, c1) ->
  HabitService.map_get key (HabitService.cache c1)
  = Some (HabitService.mkEntry d (HabitService.now c1)).
Proof.
  unfold HabitService.fetch_and_cache.
  destruct (HabitService.fetchWithErrorHandling fetch base url _ c)
    as [[j|e] c']; [|discriminate].
  intros H. injection H as <- <-. cbn [HabitService.setCache HabitService.cache
    HabitService.now]. apply map_get_set_same.
Qed.

(** After a read that resolved to [d], the cache holds [d], stamped no
    more than five minutes ago. *)
Lemma read_through_resolved (key url : string) (c c1 : HabitService.Client)
    (d : HabitService.Json) :
  (let (cachedData, c0) := HabitService.getFromCache key c in
   if HabitService.truthy cachedData then (Resolved cachedData, c0)
   else HabitService.fetch_and_cache fetch base key url c0)
  = (Resolved d, c1) ->
  exists e,
    HabitService.map_get key (HabitService.cache c1) = Some e
    /\ HabitService.data e = d
    /\ HabitService.now c1 - HabitService.timestamp e <= HabitService.CACHE_TIME.
Proof.
  unfold HabitService.getFromCache.
  assert (Fresh : forall c0,
            HabitService.fetch_and_cache fetch base key url c0 = (Resolved d, c1) ->
            exists e,
              HabitService.map_get key (HabitService.cache c1) = Some e
              /\ HabitService.data e = d
              /\ HabitService.now c1 - HabitService.timestamp e
                 <= HabitService.CACHE_TIME).
  { intros c0 H. apply fetch_and_cache_resolved in H.
    eexists. split; [exact H|]. split; [reflexivity|].
    cbn [HabitService.timestamp]. unfold HabitService.CACHE_TIME. lia. }
  destruct (HabitService.map_get key (HabitService.cache c)) as [e|] eqn:Hget.
  - destruct (Z.ltb_spec HabitService.CACHE_TIME
                (HabitService.now c - HabitService.timestamp e)) as [Old|Young].
    + cbn [HabitService.truthy]. apply Fresh.
    + destruct (HabitService.truthy (HabitService.data e)) eqn:T; [|apply Fresh].
      intros H. injection H as <- <-. exists e. repeat split; assumption.
  - cbn [HabitService.truthy]. apply Fresh.
Qed.

End ServiceFacts.

(** X20. Once [fetchHabits] has resolved to a truthy value, the cache
    holds that value under the key habits, and every later
    [fetchHabits()] made with the cache unchanged and no more than five
    minutes after the entry was stamped resolves to the same value
    without a request and without changing anything. *)
Theorem fetched_habits_are_served_from_cache {Net : Type}
    (fetch : string -> HabitService.RequestInit -> Z -> Net
             -> HabitService.FetchResult * Z * Net)
    (base : string) (forceRefresh : bool) (c c1 : HabitService.Client)
    (d : HabitService.Json) :
  HabitService.fetchHabits fetch base forceRefresh c = (Resolved d, c1) ->
  HabitService.truthy d = true ->
  exists e,
    HabitService.map_get "habits" (HabitService.cache c1) = Some e
    /\ HabitService.data e = d
    /\ HabitService.now c1 - HabitService.timestamp e <= HabitService.CACHE_TIME
    /\ forall c2,
         HabitService.cache c2 = HabitService.cache c1 ->
         HabitService.now c2 - HabitService.timestamp e
           <= HabitService.CACHE_TIME ->
         HabitService.fetchHabits fetch base false c2 = (Resolved d, c2).
Proof.
  intros Hfetch Htruthy.
  assert (Hentry : exists e,
            HabitService.map_get "habits" (HabitService.cache c1) = Some e
            /\ HabitService.data e = d
            /\ HabitService.now c1 - HabitService.timestamp e
               <= HabitService.CACHE_TIME).
  { unfold HabitService.fetchHabits in Hfetch. destruct forceRefresh.
    - apply fetch_and_cache_resolved in Hfetch.
      eexists. split; [exact Hfetch|]. split; [reflexivity|].
      cbn [HabitService.timestamp]. unfold HabitService.CACHE_TIME. lia.
    - eapply read_through_resolved. exact Hfetch. }
  destruct Hentry as (e & Hget & Hdata & Hfresh).
  exists e. repeat split; try assumption.
  intros c2 Hcache Hfresh2. unfold HabitService.fetchHabits.
  rewrite <- Hdata.
  apply read_through_hit; [rewrite Hcache; exact Hget | exact Hfresh2 |].
  rewrite Hdata. exact Htruthy.
Qed.

Lemma fetched_habits_are_served_from_cache_witness :
  fst (HabitService.fetchHabits Wire.fetch Wire.base true Wire.client)
  = Resolved (HabitService.JArray [])
  /\ let c1 := snd (HabitService.fetchHabits Wire.fetch Wire.base true
                     Wire.client) in
     let c2 := HabitService.mkClient (HabitService.cache c1)
                 (HabitService.now c1 + 240000) (HabitService.net c1)
                 (HabitService.console c1) in
     HabitService.net c2 = 1%nat
     /\ HabitService.fetchHabits Wire.fetch Wire.base false c2
        = (Resolved (HabitService.JArray []), c2).
Proof.
  split; [reflexivity|]. cbv zeta. split; [reflexivity|].
  destruct (fetched_habits_are_served_from_cache Wire.fetch Wire.base true
              Wire.client _ _ eq_refl eq_refl) as (e & Hget & _ & _ & Hserve).
  apply Hserve; [reflexivity|].
  vm_compute in Hget. injection Hget as <-. vm_compute. discriminate.
Defined.

(** ** Cache keys *)

Lemma string_of_Z_inj (a b : Z) : string_of_Z a = string_of_Z b -> a = b.
Proof.
  unfold string_of_Z. intros E.
  apply DecimalZ.to_int_inj.
  assert (Ok : forall z, NilZero.int_of_string (NilZero.string_of_int (Z.to_int z))
                         = Some (Z.to_int z)).
  { intros z. apply NilZero.isi; destruct z; simpl; try discriminate;
      intros H; injection H as H;
      exact (DecimalPos.Unsigned.to_uint_nonnil _ H). }
  apply (f_equal NilZero.int_of_string) in E. rewrite !Ok in E.
  injection E as E. exact E.
Qed.

Lemma string_app_inv_tail (a b t : string) :
  (a ++ t = b ++ t)%string -> a = b.
Proof.
  revert b. induction a as [|x a IH]; intros [|y b] E; simpl in E.
  - reflexivity.
  - exfalso. apply (f_equal String.length) in E. simpl in E.
    rewrite string_length_app in E. lia.
  - exfalso. apply (f_equal String.length) in E. simpl in E.
    rewrite string_length_app in E. lia.
  - injection E as -> E. f_equal. apply IH. exact E.
Qed.

Lemma habit_key_inj (a b : Z) :
  HabitService.getCacheKey "habit" (Some [("id"%string, HabitService.PNumber a)])
  = HabitService.getCacheKey "habit" (Some [("id"%string, HabitService.PNumber b)])
  -> a = b.
Proof.
  cbn. intros E. injection E as E.
  apply string_of_Z_inj. eapply string_app_inv_tail. exact E.
Qed.

Lemma habit_key_not_list_key (a : Z) :
  HabitService.getCacheKey "habits" None
  <> HabitService.getCacheKey "habit" (Some [("id"%string, HabitService.PNumber a)]).
Proof. cbn. discriminate. Qed.

Section ServiceFrames.
Context {Net : Type}.
Context (fetch : string -> HabitService.RequestInit -> Z -> Net
                 -> HabitService.FetchResult * Z * Net).
Context (base : string).

Lemma fetch_and_cache_frame (key key' url : string) (c : HabitService.Client) :
  key' <> key ->
  HabitService.map_get key'
    (HabitService.cache (snd (HabitService.fetch_and_cache fetch base key url c)))
  = HabitService.map_get key' (HabitService.cache c).
Proof.
  intros N. unfold HabitService.fetch_and_cache.
  pose proof (fetchWithErrorHandling_cache fetch base url
                (HabitService.mkInit HabitService.GET None) c) as H.
  destruct (HabitService.fetchWithErrorHandling fetch base url _ c)
    as [[j|e] c']; cbn [snd] in *.
  - cbn [HabitService.setCache HabitService.cache].
    rewrite map_get_set_other by exact N. rewrite H. reflexivity.
  - rewrite H. reflexivity.
Qed.

Lemma read_through_frame (key key' url : string) (c : HabitService.Client) :
  key' <> key ->
  HabitService.map_get key'
    (HabitService.cache
       (snd (let (cachedData, c1) := HabitService.getFromCache key c in
             if HabitService.truthy cachedData then (Resolved cachedData, c1)
             else HabitService.fetch_and_cache fetch base key url c1)))
  = HabitService.map_get key' (HabitService.cache c).
Proof.
  intros N. unfold HabitService.getFromCache.
  destruct (HabitService.map_get key (HabitService.cache c)) as [e|].
  - destruct (HabitService.CACHE_TIME
              <? HabitService.now c - HabitService.timestamp e).
    + cbn [HabitService.truthy]. rewrite fetch_and_cache_frame by exact N.
      cbn [HabitService.cache]. apply map_get_delete_other. exact N.
    + destruct (HabitService.truthy (HabitService.data e)); [reflexivity|].
      apply fetch_and_cache_frame. exact N.
  - cbn [HabitService.truthy]. apply fetch_and_cache_frame. exact N.
Qed.

Lemma fetch_and_clear_cache (url : string) (options : HabitService.RequestInit)
    (c : HabitService.Client) :
  match fst (HabitService.fetch_and_clear fetch base url options c) with
  | Resolved _ =>
      HabitService.cache (snd (HabitService.fetch_and_clear fetch base url options c))
      = []
  | Rejected _ =>
      HabitService.cache (snd (HabitService.fetch_and_clear fetch base url options c))
      = HabitService.cache c
  end.
Proof.
  unfold HabitService.fetch_and_clear.
  pose proof (fetchWithErrorHandling_cache fetch base url options c) as H.
  destruct (HabitService.fetchWithErrorHandling fetch base url options c)
    as [[j|e] c']; cbn [fst snd] in *; [reflexivity | exact H].
Qed.

End ServiceFrames.

(** X21. The four writing methods of the service empty the cache when
    the request resolved, and then the next [fetchHabits()] does what a
    forced refresh does; when the request was rejected they leave the
    cache as it was, so a list cached less than five minutes before is
    still what [fetchHabits()] returns. *)
Theorem writes_invalidate_only_on_success {Net : Type}
    (fetch : string -> HabitService.RequestInit -> Z -> Net
             -> HabitService.FetchResult * Z * Net)
    (base : string) (P : Platform) (op : Write) (c c2 : HabitService.Client) :
  HabitService.cache c2 = HabitService.cache (snd (perform fetch base P op c)) ->
  match fst (perform fetch base P op c) with
  | Resolved _ =>
      HabitService.cache c2 = []
      /\ HabitService.fetchHabits fetch base false c2
         = HabitService.fetchHabits fetch base true c2
  | Rejected _ =>
      HabitService.cache c2 = HabitService.cache c
      /\ forall e,
           HabitService.map_get "habits" (HabitService.cache c) = Some e ->
           HabitService.truthy (HabitService.data e) = true ->
           HabitService.now c2 - HabitService.timestamp e
             <= HabitService.CACHE_TIME ->
           HabitService.fetchHabits fetch base false c2
           = (Resolved (HabitService.data e), c2)
  end.
Proof.
  intros Hc2.
  assert (H : match fst (perform fetch base P op c) with
              | Resolved _ =>
                  HabitService.cache (snd (perform fetch base P op c)) = []
              | Rejected _ =>
                  HabitService.cache (snd (perform fetch base P op c))
                  = HabitService.cache c
              end).
  { destruct op as [data|id data|id|id date]; cbn [perform];
      unfold HabitService.createHabit, HabitService.updateHabit,
        HabitService.deleteHabit, HabitService.completeHabit;
      apply fetch_and_clear_cache. }
  destruct (fst (perform fetch base P op c)) as [r|e]; rewrite H in Hc2.
  - split; [exact Hc2|].
    unfold HabitService.fetchHabits, HabitService.getFromCache.
    rewrite Hc2. reflexivity.
  - split; [exact Hc2|].
    intros e' Hget Htruthy Hfresh. unfold HabitService.fetchHabits.
    apply read_through_hit; [rewrite Hc2; exact Hget | exact Hfresh | exact Htruthy].
Qed.

Lemma writes_invalidate_only_on_success_witness :
  exists e,
    fst (perform Wire.fetch Wire.base RefPlatform.utc (Delete 1) Wire.client)
    = Rejected e
    /\ message e = "Failed to delete habit"%string
    /\ let c1 := snd (perform Wire.fetch Wire.base RefPlatform.utc (Delete 1)
                        Wire.client) in
       HabitService.fetchHabits Wire.fetch Wire.base false c1
       = (Resolved (HabitService.JArray [HabitService.JString "Read"]), c1).
Proof.
  eexists. split; [reflexivity|]. split; [reflexivity|]. cbv zeta.
  pose proof (writes_invalidate_only_on_success Wire.fetch Wire.base
                RefPlatform.utc (Delete 1) Wire.client
                (snd (perform Wire.fetch Wire.base RefPlatform.utc (Delete 1)
                        Wire.client)) eq_refl) as H.
  cbn [fst] in H. destruct H as [_ H].
  apply (H (HabitService.mkEntry
              (HabitService.JArray [HabitService.JString "Read"])
              (Sample.evening - 60000))); [reflexivity | reflexivity |].
  vm_compute. discriminate.
Defined.

(** X22. Each habit id has a cache key of its own, different from the
    key of the list: [getHabitById(a)] never changes what the cache
    holds for another habit or for the list, and [fetchHabits] never
    changes what it holds for a single habit. *)
Theorem reads_keep_other_cache_entries {Net : Type}
    (fetch : string -> HabitService.RequestInit -> Z -> Net
             -> HabitService.FetchResult * Z * Net)
    (base : string) (a b : Z) (forceRefresh : bool) (c : HabitService.Client) :
  a <> b ->
  let key id :=
    HabitService.getCacheKey "habit" (Some [("id"%string, HabitService.PNumber id)]) in
  key a <> key b
  /\ HabitService.map_get (key b)
       (HabitService.cache (snd (HabitService.getHabitById fetch base a c)))
     = HabitService.map_get (key b) (HabitService.cache c)
  /\ HabitService.map_get "habits"
       (HabitService.cache (snd (HabitService.getHabitById fetch base a c)))
     = HabitService.map_get "habits" (HabitService.cache c)
  /\ HabitService.map_get (key b)
       (HabitService.cache
          (snd (HabitService.fetchHabits fetch base forceRefresh c)))
     = HabitService.map_get (key b) (HabitService.cache c).
Proof.
  intros N key.
  assert (Kab : key a <> key b) by (intros E; apply habit_key_inj in E; lia).
  split; [exact Kab|]. split; [|split].
  - unfold HabitService.getHabitById. apply read_through_frame.
    intros E. apply Kab. symmetry. exact E.
  - unfold HabitService.getHabitById. apply read_through_frame.
    apply (habit_key_not_list_key a).
  - unfold HabitService.fetchHabits.
    assert (Kb : key b <> HabitService.getCacheKey "habits" None).
    { intros E. exact (habit_key_not_list_key b (eq_sym E)). }
    destruct forceRefresh.
    + apply fetch_and_cache_frame. exact Kb.
    + apply read_through_frame. exact Kb.
Qed.

Lemma reads_keep_other_cache_entries_witness :
  1 <> 2
  /\ HabitService.map_get "habits"
       (HabitService.cache
          (snd (HabitService.getHabitById Wire.fetch Wire.base 1 Wire.client)))
     = HabitService.map_get "habits" (HabitService.cache Wire.client).
Proof.
  assert (N : 1 <> 2) by lia.
  split; [exact N|].
  exact (proj1 (proj2 (proj2 (reads_keep_other_cache_entries Wire.fetch
                                Wire.base 1 2 false Wire.client N)))).
Defined.

(** * Completing a habit and its streak *)

Lemma text_leb_refl (s : string) : text_leb s s = true.
Proof. destruct (text_leb_total s s); assumption. Qed.

Lemma text_leb_antisym (a b : string) :
  text_leb a b = true -> text_leb b a = true -> a = b.
Proof. apply String.leb_antisym. Qed.

Lemma entry_before_total (a b : HabitEntry.t) :
  entry_before a b = true \/ entry_before b a = true.
Proof.
  unfold entry_before.
  destruct (text_leb_total (HabitEntry.completed_at a) (HabitEntry.completed_at b));
    tauto.
Qed.

Lemma entry_before_trans (a b c : HabitEntry.t) :
  entry_before a b = true -> entry_before b c = true -> entry_before a c = true.
Proof.
  unfold entry_before. intros H1 H2. eapply text_leb_trans; eassumption.
Qed.

(** The first row of [ORDER BY completed_at DESC] carries the greatest
    [completed_at] of the rows. *)
Lemma first_entry_is_latest (l : list HabitEntry.t) (h : HabitEntry.t)
    (rest : list HabitEntry.t) :
  order_by entry_before l = h :: rest ->
  In h l
  /\ forall e, In e l ->
       text_leb (HabitEntry.completed_at e) (HabitEntry.completed_at h) = true.
Proof.
  intros E.
  pose proof (order_by_perm entry_before l) as Hp.
  pose proof (order_by_sorted entry_before entry_before_total
                entry_before_trans l) as Hs.
  rewrite E in Hp, Hs. split.
  - apply Permutation_in with (l := h :: rest);
      [apply Permutation_sym; exact Hp | left; reflexivity].
  - intros e He. apply (Permutation_in _ Hp) in He.
    destruct He as [->|He]; [apply text_leb_refl|].
    inversion Hs as [|? ? _ Hall]; subst.
    rewrite Forall_forall in Hall. exact (Hall e He).
Qed.

(** X23. Completing a habit without a [completed_at] makes its streak at
    least 1 in the same instant, in both implementations, as long as
    SQLite reads the stamp [toISOString] wrote as the current UTC day
    and none of the habit's entries carries a [completed_at] that sorts
    after that stamp. *)
Theorem completing_now_starts_a_streak (P : Platform) (id : Z)
    (body : Index.CompleteHabitBody) (w w2 : World) :
  next_fault w = None -> next_fault (served w) = None ->
  Sql.select_habit id (db w) <> None ->
  Index.completed_at body = None ->
  sqlite_date P (toISOString P (clock w)) = Some (JsDate.utcDay (clock w)) ->
  (forall e, In e (habit_entries (db w)) -> HabitEntry.habit_id e = id ->
     text_leb (HabitEntry.completed_at e) (toISOString P (clock w)) = true) ->
  db w2 = db (snd (Index.completeHabit P id body w)) ->
  clock w2 = clock w -> next_fault w2 = None ->
  exists n m : nat,
    fst (Index.calculateStreak P id w2) = Resolved (S n)
    /\ fst (HabitRepository.calculateStreak P id w2) = Resolved (S m).
Proof.
  intros F1 F2 Hsome Hbody Hdate Hold Hdb Hclock F.
  rewrite completeHabit_db, F1, F2 in Hdb.
  destruct (Sql.select_habit id (db w)) as [h0|]; [|now elim Hsome].
  rewrite Hbody in Hdb. cbn [Index.or_else] in Hdb.
  set (stamp := toISOString P (clock w)) in *.
  set (rowid := Z.max (seq_habit_entries (db w))
                  (Sql.max_entry_id (habit_entries (db w))) + 1).
  set (new := HabitEntry.mk rowid id stamp).
  set (mine := filter (fun e => HabitEntry.habit_id e =? id) (habit_entries (db w))).
  assert (Hfilter : filter (fun e => HabitEntry.habit_id e =? id)
                      (habit_entries (db w2)) = mine ++ [new]).
  { rewrite Hdb. cbn [Sql.insert_entry habit_entries]. rewrite filter_app.
    cbn [filter HabitEntry.habit_id]. rewrite Z.eqb_refl. reflexivity. }
  destruct (order_by entry_before (mine ++ [new])) as [|h rest] eqn:Esort.
  { pose proof (order_by_perm entry_before (mine ++ [new])) as Hp.
    rewrite Esort in Hp. apply Permutation_length in Hp.
    rewrite length_app in Hp. simpl in Hp. lia. }
  destruct (first_entry_is_latest _ _ _ Esort) as [Hin Hmax].
  assert (Hh : HabitEntry.completed_at h = stamp).
  { apply text_leb_antisym.
    - apply in_app_iff in Hin as [Hin|[<-|[]]]; [|apply text_leb_refl].
      apply filter_In in Hin as [Hin Hid]. apply Z.eqb_eq in Hid.
      exact (Hold h Hin Hid).
    - apply (Hmax new). apply in_app_iff. right. left. reflexivity. }
  assert (Hdates : Sql.select_entry_dates P id (db w2)
                   = Some (JsDate.utcDay (clock w))
                     :: map (fun e => sqlite_date P (HabitEntry.completed_at e)) rest).
  { unfold Sql.select_entry_dates. rewrite Hfilter, Esort. cbn [map].
    rewrite Hh. subst stamp. rewrite Hdate. reflexivity. }
  rewrite index_calculateStreak_run, repo_calculateStreak_run.
  rewrite index_streak_value_spec, repo_streak_value_spec by exact F.
  rewrite Hdates, Hclock. cbn [map]. rewrite !streak_cons.
  rewrite localDay_ofSqlDate, utcDay_ofSqlDate.
  set (U := JsDate.utcDay (clock w)).
  assert (C : JsDate.localDay (tzOffset P) (clock w)
              = U + tzOffset P / JsDate.msPerDay
              \/ JsDate.localDay (tzOffset P) (clock w)
                 = U + tzOffset P / JsDate.msPerDay + 1).
  { pose proof (localDay_no_carry (tzOffset P) (clock w)).
    pose proof (localDay_carry (tzOffset P) (clock w)).
    subst U. lia. }
  destruct (Z.leb_spec (JsDate.localDay (tzOffset P) (clock w)
                        - (U + tzOffset P / JsDate.msPerDay)) 1); [|lia].
  destruct (Z.leb_spec (U - U) 1); [|lia].
  eexists; eexists; split; reflexivity.
Qed.

Lemma completing_now_starts_a_streak_witness :
  fst (Index.calculateStreak RefPlatform.utc 3 Sample.world) = Resolved 0%nat
  /\ exists n m : nat,
       fst (Index.calculateStreak RefPlatform.utc 3 Completed.world)
       = Resolved (S n)
       /\ fst (HabitRepository.calculateStreak RefPlatform.utc 3 Completed.world)
          = Resolved (S m).
Proof.
  split; [reflexivity|].
  apply (completing_now_starts_a_streak RefPlatform.utc 3 Completed.request
           Sample.world Completed.world); try reflexivity.
  - simpl. discriminate.
  - simpl. intros e [E|[E|[E|[]]]]; subst e; simpl; intros; try lia.
Defined.
